(** * Box-detail view model of the food-freshness dashboard

    A shallow embedding of the box-detail page component
    ([BoxDetailPage], file [src/unnamed/part_000]): the two polled
    state slices with their completion handlers, and the derived
    values computed on every render.

    JavaScript numbers are IEEE 754 binary64 values; they are modelled
    by [spec_float] at precision 53 with the Standard Library's
    specification of the arithmetic operations, so that rounding,
    signed zeros and NaN behave as in the running program. *)

From Stdlib Require Import ZArith Bool String List Lia.
From Stdlib Require Import Floats.SpecFloat.
From stdpp Require Import base option list strings pretty.

Import ListNotations.
Local Open Scope string_scope.
Local Open Scope list_scope.
Local Open Scope Z_scope.

(** ** JavaScript numbers *)

Module JS.

Definition number : Type := spec_float.

Definition prec : Z := 53.
Definition emax : Z := 1024.

Definition mul : number -> number -> number := SFmul prec emax.
Definition div : number -> number -> number := SFdiv prec emax.
Definition add : number -> number -> number := SFadd prec emax.

(** The number denoted by an integer literal. *)
Definition of_Z (z : Z) : number := binary_normalize prec emax z 0 false.

(** The number denoted by a decimal literal [n / 10^k]: the binary64
    value nearest to the quotient, which correctly rounded division of
    the two (exactly representable) integers yields. *)
Definition decimal (n : Z) (k : nat) : number :=
  div (of_Z n) (of_Z (10 ^ Z.of_nat k)).

(** The integer mantissa of a finite number, with its sign. *)
Definition signed (s : bool) (m : positive) : Z := cond_Zopp s (Zpos m).

(** The greatest integer not above [z / 2^k], and the integer nearest
    to [z / 2^k] with ties going towards positive infinity. *)
Definition floor_shift (z k : Z) : Z := Z.shiftr z k.

Definition round_shift (z k : Z) : Z := Z.shiftr (2 * z + 2 ^ k) (k + 1).

(** [Math.floor]: NaN, the infinities, the zeros and integral values
    are returned unchanged; otherwise the greatest integer below. *)
Definition Math_floor (x : number) : number :=
  match x with
  | S754_finite s m e =>
      if 0 <=? e then x
      else of_Z (floor_shift (signed s m) (- e))
  | _ => x
  end.

(** [Math.round]: the integer nearest to [x], ties going towards
    positive infinity; a result of zero keeps the sign of [x]. *)
Definition Math_round (x : number) : number :=
  match x with
  | S754_finite s m e =>
      if 0 <=? e then x
      else
        let z := round_shift (signed s m) (- e) in
        if z =? 0 then S754_zero s else of_Z z
  | _ => x
  end.

(** The mantissa of [m * 2^e] once written with the smaller exponent
    [e']. *)
Definition aligned (m : positive) (e e' : Z) : Z := Z.shiftl (Zpos m) (e - e').

(** The [%] operator ([Number::remainder]): the result has the sign of
    the dividend and is computed exactly. *)
Definition rem (n d : number) : number :=
  match n, d with
  | S754_nan, _ | _, S754_nan => S754_nan
  | S754_infinity _, _ => S754_nan
  | _, S754_infinity _ => n
  | _, S754_zero _ => S754_nan
  | S754_zero _, _ => n
  | S754_finite sn mn en, S754_finite _ md ed =>
      let e := Z.min en ed in
      let r := Z.rem (aligned mn en e) (aligned md ed e) in
      if r =? 0 then S754_zero sn
      else binary_normalize prec emax (cond_Zopp sn r) e false
  end.

(** The numbers that can stand for a duration: positive zero and the
    positive finite numbers, in the canonical form every binary64 value
    has. *)
Definition duration (x : number) : bool :=
  match x with
  | S754_zero false => true
  | S754_finite false m e => bounded prec emax m e
  | _ => false
  end.

(** [ToBoolean] on numbers and strings. *)
Definition truthy (x : number) : bool :=
  match x with
  | S754_zero _ | S754_nan => false
  | _ => true
  end.

Definition truthy_string (s : string) : bool :=
  match s with
  | EmptyString => false
  | _ => true
  end.

(** [x || d] where [x] may be [undefined]. *)
Definition or_default (x : option number) (d : number) : number :=
  match x with
  | Some v => if truthy v then v else d
  | None => d
  end.

Definition or_default_string (x : option string) (d : string) : string :=
  match x with
  | Some v => if truthy_string v then v else d
  | None => d
  end.

(** [x ?? d]. *)
Definition nullish {A : Type} (x : option A) (d : A) : A :=
  match x with
  | Some v => v
  | None => d
  end.

(** The [===] comparison of two numbers. *)
Definition strict_eq : number -> number -> bool := SFeqb.

(** [x <= y]. *)
Definition le : number -> number -> bool := SFleb.

(** Completion records: an expression evaluates normally or throws. *)
Inductive error : Type :=
  | TypeError.

Inductive completion (A : Type) : Type :=
  | Normal (a : A)
  | Throw (e : error).

Arguments Normal {A} a.
Arguments Throw {A} e.

#[global] Instance completion_ret : MRet completion := fun A a => Normal a.

#[global] Instance completion_bind : MBind completion := fun A B k c =>
  match c with
  | Normal a => k a
  | Throw e => Throw e
  end.

(** Property access [o.f] on a value that may be [undefined] or [null]:
    a [TypeError] when it is. *)
Definition get {A B : Type} (o : option A) (f : A -> B) : completion B :=
  match o with
  | Some a => Normal (f a)
  | None => Throw TypeError
  end.

(** Optional chaining [o?.f], for a field that may itself be absent. *)
Definition opt_get {A B : Type} (o : option A) (f : A -> option B) : option B :=
  match o with
  | Some a => f a
  | None => None
  end.

End JS.

(** ** Payloads of the two endpoints

    The TypeScript interfaces of the page.  A payload is parsed JSON, so
    any field of the prediction payload may be absent at run time; an
    absent ([undefined]) or [null] field is [None].  The fields
    [confidence] and [status] of [RawPrediction] carry the prefix [raw_]
    to keep them apart from those of the enclosing objects. *)

Module Api.

Record SensorRow : Type := {
  id : JS.number;
  temperatureC : JS.number;
  temperatureF : JS.number;
  humidity : JS.number;
  ppm_nh3 : JS.number;
  ppm_co2 : JS.number;
  ppm_c2h5oh : JS.number;
  timestamp : string
}.

Record DataResponse : Type := {
  count : option JS.number;
  data : option (list SensorRow)
}.

Record RawPrediction : Type := {
  classification_text : option string;
  classification_prob : option JS.number;
  raw_confidence : option JS.number;
  rsl_hours : option JS.number;
  raw_status : option string
}.

Record Prediction : Type := {
  classification : option string;
  probability : option JS.number;
  confidence : option JS.number;
  raw_prediction : option RawPrediction
}.

Record PredictResponse : Type := {
  status : option string;
  prediction : option Prediction;
  blynk_updated : option bool;
  blynk_pin : option string;
  blynk_value : option JS.number;
  data_points_used : option JS.number
}.

End Api.

(** ** The HTTP client *)

Module Axios.

(** A settled request: the promise resolves with the response body
    ([None] for an empty or [null] body), or rejects with an
    [AxiosError] (transport failure, timeout, non-2xx status) of which
    the handlers read the message only. *)
Inductive result (A : Type) : Type :=
  | Resolved (body : option A)
  | Rejected (message : string).

Arguments Resolved {A} body.
Arguments Rejected {A} message.

Inductive param : Type :=
  | PNum (n : JS.number)
  | PStr (s : string).

Record request : Type := {
  method : string;
  url : string;
  params : list (string * param)
}.

End Axios.

(** The build-time environment of the page. *)
Record Env : Type := {
  NEXT_PUBLIC_API_BASE_URL : option string;
  NEXT_PUBLIC_K : option string
}.

Definition baseURL (env : Env) : string :=
  JS.or_default_string (NEXT_PUBLIC_API_BASE_URL env) "http://localhost:8001".

Definition timeout : JS.number := JS.of_Z 10000.

Definition default_k : string := "ggodjob gpt terbaik, i trust you".

Definition K_PARAM (env : Env) : string :=
  JS.or_default_string (NEXT_PUBLIC_K env) default_k.

(** ** Component state and the two fetch callbacks *)

Record ViewState : Type := {
  dataRows : list Api.SensorRow;
  loadingData : bool;
  predict : option Api.PredictResponse;
  loadingPredict : bool;
  errorMsg : option string
}.

(** The [useState] initial values. *)
Definition initial : ViewState :=
  {| dataRows := [];
     loadingData := true;
     predict := None;
     loadingPredict := true;
     errorMsg := None |}.

Definition setDataRows (v : list Api.SensorRow) (s : ViewState) : ViewState :=
  {| dataRows := v;
     loadingData := loadingData s;
     predict := predict s;
     loadingPredict := loadingPredict s;
     errorMsg := errorMsg s |}.

Definition setLoadingData (v : bool) (s : ViewState) : ViewState :=
  {| dataRows := dataRows s;
     loadingData := v;
     predict := predict s;
     loadingPredict := loadingPredict s;
     errorMsg := errorMsg s |}.

Definition setPredict (v : option Api.PredictResponse) (s : ViewState) : ViewState :=
  {| dataRows := dataRows s;
     loadingData := loadingData s;
     predict := v;
     loadingPredict := loadingPredict s;
     errorMsg := errorMsg s |}.

Definition setLoadingPredict (v : bool) (s : ViewState) : ViewState :=
  {| dataRows := dataRows s;
     loadingData := loadingData s;
     predict := predict s;
     loadingPredict := v;
     errorMsg := errorMsg s |}.

Definition setErrorMsg (v : option string) (s : ViewState) : ViewState :=
  {| dataRows := dataRows s;
     loadingData := loadingData s;
     predict := predict s;
     loadingPredict := loadingPredict s;
     errorMsg := v |}.

(** [fetchDataRows] up to its [await]: the flag is raised and the
    request leaves. *)
Definition fetchDataRows_request (env : Env) : Axios.request :=
  {| Axios.method := "GET";
     Axios.url := "/data";
     Axios.params := [("limit", Axios.PNum (JS.of_Z 50));
                      ("k", Axios.PStr (K_PARAM env))] |}.

Definition fetchDataRows_issue (s : ViewState) : ViewState :=
  setLoadingData true s.

(** [fetchDataRows] from its [await] on: the [try] continuation or the
    [catch] block, then [finally]. *)
Definition fetchDataRows_settle
    (r : Axios.result Api.DataResponse) (s : ViewState) : ViewState :=
  let s' :=
    match r with
    | Axios.Resolved body =>
        setDataRows (JS.nullish (JS.opt_get body Api.data) []) s
    | Axios.Rejected message =>
        setErrorMsg (Some message) s
    end in
  setLoadingData false s'.

Definition fetchPredict_request : Axios.request :=
  {| Axios.method := "GET";
     Axios.url := "/predict";
     Axios.params := [] |}.

Definition fetchPredict_issue (s : ViewState) : ViewState :=
  setLoadingPredict true s.

Definition fetchPredict_settle
    (r : Axios.result Api.PredictResponse) (s : ViewState) : ViewState :=
  let s' :=
    match r with
    | Axios.Resolved body =>
        setPredict body s
    | Axios.Rejected message =>
        setErrorMsg (Some message) s
    end in
  setLoadingPredict false s'.

(** ** The polling loop as a trace of events

    Every run of the effect body (on mount and on each interval tick)
    calls [fetchDataRows()] then [fetchPredict()]; each runs to its
    [await], and the two continuations run later, in the order in which
    the responses arrive. *)

Inductive event : Type :=
  | DataIssued
  | PredictIssued
  | DataSettled (r : Axios.result Api.DataResponse)
  | PredictSettled (r : Axios.result Api.PredictResponse).

Definition step (s : ViewState) (ev : event) : ViewState :=
  match ev with
  | DataIssued => fetchDataRows_issue s
  | PredictIssued => fetchPredict_issue s
  | DataSettled r => fetchDataRows_settle r s
  | PredictSettled r => fetchPredict_settle r s
  end.

Definition run (s : ViewState) (tr : list event) : ViewState :=
  fold_left step tr s.

(** The request an event puts on the wire, if any. *)
Definition emitted (env : Env) (ev : event) : option Axios.request :=
  match ev with
  | DataIssued => Some (fetchDataRows_request env)
  | PredictIssued => Some fetchPredict_request
  | _ => None
  end.

Definition requests (env : Env) (tr : list event) : list Axios.request :=
  omap (emitted env) tr.

(** The order in which the two responses of a tick arrive. *)
Inductive arrival : Type :=
  | DataFirst
  | PredictFirst.

Definition tick (o : arrival)
    (rd : Axios.result Api.DataResponse)
    (rp : Axios.result Api.PredictResponse) : list event :=
  [DataIssued; PredictIssued] ++
  match o with
  | DataFirst => [DataSettled rd; PredictSettled rp]
  | PredictFirst => [PredictSettled rp; DataSettled rd]
  end.

(** What the history of responses determines: the rows of the last
    sensor-data response that resolved, the body of the last prediction
    response that resolved, and the message of the last rejection of
    either request. *)
Definition rows_of (body : option Api.DataResponse) : list Api.SensorRow :=
  JS.nullish (JS.opt_get body Api.data) [].

Fixpoint last_rows (acc : list Api.SensorRow) (tr : list event)
  : list Api.SensorRow :=
  match tr with
  | [] => acc
  | DataSettled (Axios.Resolved body) :: tr' => last_rows (rows_of body) tr'
  | _ :: tr' => last_rows acc tr'
  end.

Fixpoint last_prediction (acc : option Api.PredictResponse) (tr : list event)
  : option Api.PredictResponse :=
  match tr with
  | [] => acc
  | PredictSettled (Axios.Resolved body) :: tr' => last_prediction body tr'
  | _ :: tr' => last_prediction acc tr'
  end.

Fixpoint last_failure (acc : option string) (tr : list event) : option string :=
  match tr with
  | [] => acc
  | DataSettled (Axios.Rejected message) :: tr' => last_failure (Some message) tr'
  | PredictSettled (Axios.Rejected message) :: tr' => last_failure (Some message) tr'
  | _ :: tr' => last_failure acc tr'
  end.

(** A settlement that is a rejection. *)
Definition is_rejection (ev : event) : bool :=
  match ev with
  | DataSettled (Axios.Rejected _) => true
  | PredictSettled (Axios.Rejected _) => true
  | _ => false
  end.

(** ** Derived values

    The constants computed in the component body on every render, as
    functions of the state the render reads. *)

(** [dataRows[0] || null]: a row is an object, hence truthy, so the
    disjunction only turns the [undefined] of an empty array into
    [null]. *)
Definition latest (s : ViewState) : option Api.SensorRow :=
  dataRows s !! 0%nat.

Definition classification (s : ViewState) : string :=
  JS.nullish
    (JS.opt_get (JS.opt_get (predict s) Api.prediction) Api.classification)
    "—".

Definition probabilityPct (s : ViewState) : JS.completion (option JS.number) :=
  match predict s with
  | Some resp =>
      p ← JS.get (Api.prediction resp) Api.probability;
      mret (Some (JS.Math_round
                    (JS.mul (JS.or_default p (JS.of_Z 0)) (JS.of_Z 100))))
  | None => mret None
  end.

Definition confidencePct (s : ViewState) : option JS.number :=
  JS.opt_get (JS.opt_get (predict s) Api.prediction) Api.confidence.

Definition rslHours (s : ViewState) : option JS.number :=
  JS.opt_get
    (JS.opt_get (JS.opt_get (predict s) Api.prediction) Api.raw_prediction)
    Api.rsl_hours.

Definition rslDays (s : ViewState) : option JS.number :=
  match rslHours s with
  | Some h => Some (JS.Math_floor (JS.div h (JS.of_Z 24)))
  | None => None
  end.

Definition rslRemHours (s : ViewState) : option JS.number :=
  match rslHours s with
  | Some h => Some (JS.Math_round (JS.rem h (JS.of_Z 24)))
  | None => None
  end.

(** The time value handed to the [Date] constructor; [now] is the
    reading of [Date.now()]. *)
Definition spoilDate (now : JS.number) (s : ViewState) : option JS.number :=
  match rslHours s with
  | Some h =>
      Some (JS.add now (JS.mul (JS.mul h (JS.of_Z 3600)) (JS.of_Z 1000)))
  | None => None
  end.

Definition rowsAsc (s : ViewState) : list Api.SensorRow :=
  reverse (dataRows s).

Record point : Type := {
  x : string;
  value : JS.number
}.

(** A datum of a chart: the fallback datum has a numeric abscissa. *)
Inductive abscissa : Type :=
  | Label (text : string)
  | Origin (n : JS.number).

Record datum : Type := {
  datum_x : abscissa;
  datum_value : JS.number
}.

Record Screen : Type := {
  status_card : string;
  probability_line : string;
  shelf_life_card : string;
  spoil_line : string;
  temperature_card : string;
  humidity_card : string;
  co2_card : string;
  nh3_card : string;
  ethanol_card : string;
  history_points : nat;
  co2_chart : list datum;
  nh3_chart : list datum;
  ethanol_chart : list datum;
  error_notice : option string
}.

Section Render.

(** Conversions of the platform: [Number::toString],
    [Number.prototype.toFixed], and the locale renderings of a [Date]
    built from an ISO string or from a time value. *)
Variable Number_toString : JS.number -> string.
Variable toFixed : JS.number -> nat -> string.
Variable toLocaleTimeString : string -> string.
Variable toLocaleString : JS.number -> string.

Definition co2Series (s : ViewState) : list point :=
  (fun r => {| x := toLocaleTimeString (Api.timestamp r);
               value := Api.ppm_co2 r |}) <$> rowsAsc s.

Definition nh3Series (s : ViewState) : list point :=
  (fun r => {| x := toLocaleTimeString (Api.timestamp r);
               value := Api.ppm_nh3 r |}) <$> rowsAsc s.

Definition ethanolSeries (s : ViewState) : list point :=
  (fun r => {| x := toLocaleTimeString (Api.timestamp r);
               value := Api.ppm_c2h5oh r |}) <$> rowsAsc s.

(** The pair a series holds for a row, for a given channel. *)
Definition point_of (gas : Api.SensorRow -> JS.number) (r : Api.SensorRow)
  : point :=
  {| x := toLocaleTimeString (Api.timestamp r); value := gas r |}.

(** A template-literal hole holding a number or [null]. *)
Definition hole (v : option JS.number) : string :=
  match v with
  | Some n => Number_toString n
  | None => "null"
  end.

Definition status_text (s : ViewState) : string :=
  if loadingPredict s then "…" else classification s.

Definition probability_text (s : ViewState) (pct : option JS.number) : string :=
  if loadingPredict s then "Calculating…"
  else
    match pct, confidencePct s with
    | Some _, Some _ =>
        ("Prob: " ++ hole pct ++ "% • Confidence: "
           ++ hole (confidencePct s) ++ "%")%string
    | _, _ => "—"
    end.

Definition shelf_life_text (s : ViewState) : string :=
  if loadingPredict s then "…"
  else
    match rslHours s with
    | Some _ => (hole (rslDays s) ++ "d " ++ hole (rslRemHours s) ++ "h")%string
    | None => "—"
    end.

Definition spoil_text (now : JS.number) (s : ViewState) : string :=
  match spoilDate now s with
  | Some t => ("Food will be spoiled on " ++ toLocaleString t)%string
  | None => "Waiting prediction…"
  end.

(** The five cards fed by [latest]: each reads a field of [latest]
    only under the test that [latest] is not [null]. *)
Definition temperature_text (s : ViewState) : JS.completion string :=
  if loadingData s then mret "…"
  else if bool_decide (is_Some (latest s)) then
    t ← JS.get (latest s) Api.temperatureC;
    mret (toFixed t 1 ++ "°C")%string
  else mret "—".

Definition humidity_text (s : ViewState) : JS.completion string :=
  if loadingData s then mret "…"
  else if bool_decide (is_Some (latest s)) then
    h ← JS.get (latest s) Api.humidity;
    mret (Number_toString h ++ "%")%string
  else mret "—".

Definition co2_text (s : ViewState) : JS.completion string :=
  if loadingData s then mret "…"
  else if bool_decide (is_Some (latest s)) then
    v ← JS.get (latest s) Api.ppm_co2;
    mret (Number_toString v ++ " ppm")%string
  else mret "—".

Definition nh3_text (s : ViewState) : JS.completion string :=
  if loadingData s then mret "…"
  else if bool_decide (is_Some (latest s)) then
    v ← JS.get (latest s) Api.ppm_nh3;
    mret (Number_toString v ++ " ppm")%string
  else mret "—".

Definition ethanol_text (s : ViewState) : JS.completion string :=
  if loadingData s then mret "…"
  else if bool_decide (is_Some (latest s)) then
    v ← JS.get (latest s) Api.ppm_c2h5oh;
    mret (Number_toString v ++ " ppm")%string
  else mret "—".

(** [series.length ? series : [{ x: 0, value: 0 }]]. *)
Definition chart_data (series : list point) : list datum :=
  match series with
  | [] => [{| datum_x := Origin (JS.of_Z 0); datum_value := JS.of_Z 0 |}]
  | _ => (fun p => {| datum_x := Label (x p); datum_value := value p |}) <$> series
  end.

Definition error_text (s : ViewState) : option string :=
  match errorMsg s with
  | Some m => if JS.truthy_string m then Some ("Error: " ++ m)%string else None
  | None => None
  end.

(** One render: the derived constants are computed first, then the
    element tree is built; an exception at any point aborts the render. *)
Definition render (now : JS.number) (s : ViewState) : JS.completion Screen :=
  pct ← probabilityPct s;
  temperature ← temperature_text s;
  humid ← humidity_text s;
  co2 ← co2_text s;
  nh3 ← nh3_text s;
  ethanol ← ethanol_text s;
  mret {| status_card := status_text s;
          probability_line := probability_text s pct;
          shelf_life_card := shelf_life_text s;
          spoil_line := spoil_text now s;
          temperature_card := temperature;
          humidity_card := humid;
          co2_card := co2;
          nh3_card := nh3;
          ethanol_card := ethanol;
          history_points := length (rowsAsc s);
          co2_chart := chart_data (co2Series s);
          nh3_chart := chart_data (nh3Series s);
          ethanol_chart := chart_data (ethanolSeries s);
          error_notice := error_text s |}.

End Render.

(** ** Arrays as mutable objects

    [Array.prototype.reverse] reverses its receiver in place and returns
    it; the spread [[...a]] allocates a copy.  A store maps array
    references to contents. *)

Module ArrayStore.

Abbreviation ref := nat (only parsing).
Abbreviation store A := (list (list A)) (only parsing).

Section Store.

Context {A : Type}.

(** The contents of a live reference. *)
Definition read (r : ref) (h : store A) : list A := default [] (h !! r).

Definition spread (r : ref) (h : store A) : ref * store A :=
  (length h, h ++ [read r h]).

Definition reverse (r : ref) (h : store A) : ref * store A :=
  (r, alter reverse r h).

(** [const rowsAsc = [...dataRows].reverse()]. *)
Definition rowsAsc (dataRows : ref) (h : store A) : ref * store A :=
  let '(copy, h1) := spread dataRows h in
  reverse copy h1.

End Store.

End ArrayStore.

(** ** The dashboard page: box configuration

    The [Dashboard] component (second part of
    [src/frontend/app/api/chat/route.ts]): the state hooks the box
    handlers read and write, the handlers, and the controls that reach
    them.  A box id is an array length plus one, a small natural
    number. *)

Module Dashboard.

Record BoxData : Type := {
  id : nat;
  description : string;
  humidity : JS.number;
  temperature : JS.number;
  co2 : JS.number;
  methane : JS.number;
  alcohol : JS.number;
  freshness : JS.number
}.

Record Panel : Type := {
  boxes : list BoxData;
  showAddModal : bool;
  showDetailModal : bool;
  showManageModal : bool;
  selectedBox : option BoxData;
  selectedBoxId : option nat;
  newBoxDescription : string;
  editDescription : string
}.

(** The [useState] initial values. *)
Definition initial : Panel :=
  {| boxes := [];
     showAddModal := false;
     showDetailModal := false;
     showManageModal := false;
     selectedBox := None;
     selectedBoxId := None;
     newBoxDescription := "";
     editDescription := "" |}.

Definition setBoxes (v : list BoxData) (s : Panel) : Panel :=
  {| boxes := v;
     showAddModal := showAddModal s;
     showDetailModal := showDetailModal s;
     showManageModal := showManageModal s;
     selectedBox := selectedBox s;
     selectedBoxId := selectedBoxId s;
     newBoxDescription := newBoxDescription s;
     editDescription := editDescription s |}.

Definition setShowAddModal (v : bool) (s : Panel) : Panel :=
  {| boxes := boxes s;
     showAddModal := v;
     showDetailModal := showDetailModal s;
     showManageModal := showManageModal s;
     selectedBox := selectedBox s;
     selectedBoxId := selectedBoxId s;
     newBoxDescription := newBoxDescription s;
     editDescription := editDescription s |}.

Definition setShowDetailModal (v : bool) (s : Panel) : Panel :=
  {| boxes := boxes s;
     showAddModal := showAddModal s;
     showDetailModal := v;
     showManageModal := showManageModal s;
     selectedBox := selectedBox s;
     selectedBoxId := selectedBoxId s;
     newBoxDescription := newBoxDescription s;
     editDescription := editDescription s |}.

Definition setShowManageModal (v : bool) (s : Panel) : Panel :=
  {| boxes := boxes s;
     showAddModal := showAddModal s;
     showDetailModal := showDetailModal s;
     showManageModal := v;
     selectedBox := selectedBox s;
     selectedBoxId := selectedBoxId s;
     newBoxDescription := newBoxDescription s;
     editDescription := editDescription s |}.

Definition setSelectedBox (v : option BoxData) (s : Panel) : Panel :=
  {| boxes := boxes s;
     showAddModal := showAddModal s;
     showDetailModal := showDetailModal s;
     showManageModal := showManageModal s;
     selectedBox := v;
     selectedBoxId := selectedBoxId s;
     newBoxDescription := newBoxDescription s;
     editDescription := editDescription s |}.

Definition setSelectedBoxId (v : option nat) (s : Panel) : Panel :=
  {| boxes := boxes s;
     showAddModal := showAddModal s;
     showDetailModal := showDetailModal s;
     showManageModal := showManageModal s;
     selectedBox := selectedBox s;
     selectedBoxId := v;
     newBoxDescription := newBoxDescription s;
     editDescription := editDescription s |}.

Definition setNewBoxDescription (v : string) (s : Panel) : Panel :=
  {| boxes := boxes s;
     showAddModal := showAddModal s;
     showDetailModal := showDetailModal s;
     showManageModal := showManageModal s;
     selectedBox := selectedBox s;
     selectedBoxId := selectedBoxId s;
     newBoxDescription := v;
     editDescription := editDescription s |}.

Definition setEditDescription (v : string) (s : Panel) : Panel :=
  {| boxes := boxes s;
     showAddModal := showAddModal s;
     showDetailModal := showDetailModal s;
     showManageModal := showManageModal s;
     selectedBox := selectedBox s;
     selectedBoxId := selectedBoxId s;
     newBoxDescription := newBoxDescription s;
     editDescription := v |}.

(** The six readings of [Math.random()] that [handleSaveBox] takes, in
    the order of the fields of the object literal. *)
Record Draws : Type := {
  draw_humidity : JS.number;
  draw_temperature : JS.number;
  draw_co2 : JS.number;
  draw_methane : JS.number;
  draw_alcohol : JS.number;
  draw_freshness : JS.number
}.

Definition handleAddBox (s : Panel) : Panel :=
  if (length (boxes s) <? 4)%nat then setShowAddModal true s else s.

Definition newBox (r : Draws) (s : Panel) : BoxData :=
  {| id := length (boxes s) + 1;
     description := newBoxDescription s;
     humidity := JS.mul (draw_humidity r) (JS.of_Z 100);
     temperature := JS.add (JS.of_Z 20) (JS.mul (draw_temperature r) (JS.of_Z 15));
     co2 := JS.mul (draw_co2 r) (JS.of_Z 1000);
     methane := JS.mul (draw_methane r) (JS.of_Z 100);
     alcohol := JS.mul (draw_alcohol r) (JS.of_Z 50);
     freshness := JS.add (JS.of_Z 90) (JS.mul (draw_freshness r) (JS.of_Z 10)) |}.

Definition handleSaveBox (r : Draws) (s : Panel) : Panel :=
  setShowAddModal false
    (setNewBoxDescription "" (setBoxes (boxes s ++ [newBox r s]) s)).

Definition handleBoxClick (box : BoxData) (s : Panel) : Panel :=
  setShowDetailModal true (setSelectedBox (Some box) s).

Definition handleManageBox (s : Panel) : Panel :=
  setEditDescription "" (setSelectedBoxId None (setShowManageModal true s)).

(** [confirmed] is the answer to [window.confirm]. *)
Definition handleDeleteBox (confirmed : bool) (s : Panel) : Panel :=
  match selectedBoxId s with
  | None => s
  | Some i =>
      if confirmed then
        setShowManageModal false
          (setSelectedBoxId None
             (setBoxes (filter (fun box => id box <> i) (boxes s)) s))
      else s
  end.

Definition handleEditBox (s : Panel) : Panel :=
  match selectedBoxId s with
  | None => s
  | Some i =>
      match list_find (fun box => id box = i) (boxes s) with
      | Some (_, boxToEdit) => setEditDescription (description boxToEdit) s
      | None => s
      end
  end.

Definition with_description (d : string) (box : BoxData) : BoxData :=
  {| id := id box;
     description := d;
     humidity := humidity box;
     temperature := temperature box;
     co2 := co2 box;
     methane := methane box;
     alcohol := alcohol box;
     freshness := freshness box |}.

Definition handleSaveEdit (s : Panel) : Panel :=
  match selectedBoxId s with
  | None => s
  | Some i =>
      setShowManageModal false
        (setSelectedBoxId None
           (setEditDescription ""
              (setBoxes
                 ((fun box =>
                     if decide (id box = i)
                     then with_description (editDescription s) box
                     else box) <$> boxes s) s)))
  end.

(** The inline handlers of the three modals. *)
Definition dismissAddModal (s : Panel) : Panel :=
  setNewBoxDescription "" (setShowAddModal false s).

Definition dismissManageModal (s : Panel) : Panel :=
  setShowManageModal false s.

Definition closeManageModal (s : Panel) : Panel :=
  setEditDescription "" (setSelectedBoxId None (setShowManageModal false s)).

Definition selectBoxId (v : option nat) (s : Panel) : Panel :=
  setEditDescription "" (setSelectedBoxId v s).

Definition cancelEdit (s : Panel) : Panel :=
  setSelectedBoxId None (setEditDescription "" s).

(** What the user can do.  A control acts only while it is rendered
    and not disabled. *)
Inductive action : Type :=
  | ClickAddBox
  | TypeNewDescription (v : string)
  | ClickSaveBox (r : Draws)
  | DismissAddModal
  | ClickBox (box : BoxData)
  | DismissDetailModal
  | ClickManageBox
  | SelectBoxId (v : option nat)
  | ClickEditBox
  | ClickDeleteBox (confirmed : bool)
  | TypeEditDescription (v : string)
  | ClickSaveEdit
  | ClickCancelEdit
  | DismissManageModal
  | ClickCloseManage.

Section Controls.

(** [String.prototype.trim]. *)
Variable trim : string -> string.

Definition enabled (s : Panel) (a : action) : Prop :=
  match a with
  | ClickAddBox => (length (boxes s) < 4)%nat
  | TypeNewDescription _ => showAddModal s = true
  | ClickSaveBox _ =>
      showAddModal s = true /\
      JS.truthy_string (trim (newBoxDescription s)) = true
  | DismissAddModal => showAddModal s = true
  | ClickBox box => box ∈ boxes s
  | DismissDetailModal =>
      showDetailModal s = true /\ is_Some (selectedBox s)
  | ClickManageBox => True
  | SelectBoxId v =>
      showManageModal s = true /\
      (v = None \/ exists box, box ∈ boxes s /\ v = Some (id box))
  | ClickEditBox =>
      showManageModal s = true /\ editDescription s = "" /\
      is_Some (selectedBoxId s)
  | ClickDeleteBox _ =>
      showManageModal s = true /\ editDescription s = "" /\
      is_Some (selectedBoxId s)
  | TypeEditDescription _ =>
      showManageModal s = true /\ editDescription s <> ""
  | ClickSaveEdit =>
      showManageModal s = true /\ editDescription s <> ""
  | ClickCancelEdit =>
      showManageModal s = true /\ editDescription s <> ""
  | DismissManageModal => showManageModal s = true
  | ClickCloseManage => showManageModal s = true
  end.

Definition perform (a : action) (s : Panel) : Panel :=
  match a with
  | ClickAddBox => handleAddBox s
  | TypeNewDescription v => setNewBoxDescription v s
  | ClickSaveBox r => handleSaveBox r s
  | DismissAddModal => dismissAddModal s
  | ClickBox box => handleBoxClick box s
  | DismissDetailModal => setShowDetailModal false s
  | ClickManageBox => handleManageBox s
  | SelectBoxId v => selectBoxId v s
  | ClickEditBox => handleEditBox s
  | ClickDeleteBox confirmed => handleDeleteBox confirmed s
  | TypeEditDescription v => setEditDescription v s
  | ClickSaveEdit => handleSaveEdit s
  | ClickCancelEdit => cancelEdit s
  | DismissManageModal => dismissManageModal s
  | ClickCloseManage => closeManageModal s
  end.

(** The state after a sequence of actions. *)
Definition run (acts : list action) (s : Panel) : Panel :=
  fold_left (fun s a => perform a s) acts s.

(** The ids of the boxes held, in order. *)
Definition ids (s : Panel) : list nat := id <$> boxes s.

(** A selected id names a box, and the edit field is filled only while
    an id is selected. *)
Definition selection_ok (s : Panel) : Prop :=
  (forall i, selectedBoxId s = Some i ->
     exists box, box ∈ boxes s /\ id box = i) /\
  (editDescription s <> "" -> is_Some (selectedBoxId s)).

(** The states the page can be brought to from its initial state. *)
Inductive reachable : Panel -> Prop :=
  | reachable_initial : reachable initial
  | reachable_perform s a :
      reachable s -> enabled s a -> reachable (perform a s).

End Controls.

End Dashboard.

(** ** The chat route

    The [POST] and [GET] handlers of [/api/chat] (first part of
    [src/frontend/app/api/chat/route.ts]).  Each makes at most one
    upstream request and answers from its result. *)

Module ChatRoute.

Record Env : Type := {
  OLLAMA_URL : option string;
  OLLAMA_MODEL : option string
}.

Definition ollama_url (env : Env) : string :=
  JS.or_default_string (OLLAMA_URL env) "http://localhost:11434".

Definition ollama_model (env : Env) : string :=
  JS.or_default_string (OLLAMA_MODEL env) "falcon3:1b".

(** The result of reading a JSON body: the value, or the exception
    thrown by the parser. *)
Inductive parse (A : Type) : Type :=
  | Parsed (data : A)
  | ParseError (message : string).

Arguments Parsed {A} data.
Arguments ParseError {A} message.

Record Message : Type := {
  role : string;
  content : string
}.

Record Body : Type := {
  message : option string;
  conversationHistory : option (list Message)
}.

(** What [fetch] gives: a rejection, or a response with its status,
    its text and its reading as JSON. *)
Inductive upstream (A : Type) : Type :=
  | NetworkError (message : string)
  | Response (status : nat) (text : string) (json : parse A).

Arguments NetworkError {A} message.
Arguments Response {A} status text json.

(** [response.ok]. *)
Definition ok (status : nat) : bool :=
  ((200 <=? status) && (status <=? 299))%nat.

Record GenerateOptions : Type := {
  temperature : JS.number;
  num_predict : nat
}.

Record GenerateBody : Type := {
  body_model : string;
  prompt : string;
  stream : bool;
  options : GenerateOptions
}.

Record FetchRequest : Type := {
  url : string;
  method : string;
  headers : list (string * string);
  body : option GenerateBody
}.

Record GenerateData : Type := {
  response : option string;
  model : option string
}.

Record ModelInfo : Type := {
  name : string
}.

Record TagsData : Type := {
  models : option (list ModelInfo)
}.

Inductive Payload : Type :=
  | BadRequest (error : string)
  | ChatReply (reply model_used : string)
  | ChatFailure (error details hint : string)
  | HealthOk (state base : string) (names : list string)
  | HealthError (state message details : string).

Record NextResponse : Type := {
  status : nat;
  payload : Payload
}.

(** A handler answers at once, or after one upstream request. *)
Inductive outcome (A : Type) : Type :=
  | Respond (r : NextResponse)
  | Call (req : FetchRequest) (k : upstream A -> NextResponse).

Arguments Respond {A} r.
Arguments Call {A} req k.

Definition nl : string := String (Ascii.ascii_of_nat 10) EmptyString.

Definition preamble : string :=
  ("You are an AI assistant for Penyelamat Pangan, a food safety monitoring system. You help users understand their sensor data, provide food safety advice, and answer questions about temperature, humidity, CO2, NH3, and ethanol levels in food storage. Keep responses concise and helpful. Focus on food freshness, spoilage prevention, and optimal storage conditions."
     ++ nl ++ nl)%string.

(** The body of the [forEach] over the conversation history. *)
Definition add_turn (fullPrompt : string) (msg : Message) : string :=
  if String.eqb (role msg) "user" then
    (fullPrompt ++ "User: " ++ content msg ++ nl)%string
  else if String.eqb (role msg) "assistant" then
    (fullPrompt ++ "Assistant: " ++ content msg ++ nl)%string
  else fullPrompt.

(** The lines one message contributes, and those of a whole history. *)
Definition turn (msg : Message) : string := add_turn "" msg.

Fixpoint turns (history : list Message) : string :=
  match history with
  | [] => ""
  | msg :: rest => (turn msg ++ turns rest)%string
  end.

Definition known_role (msg : Message) : Prop :=
  role msg = "user" \/ role msg = "assistant".

#[global] Instance known_role_dec (msg : Message) : Decision (known_role msg).
Proof. unfold known_role. apply _. Defined.

Definition fullPrompt (history : list Message) (message : string) : string :=
  (fold_left add_turn history preamble
     ++ "User: " ++ message ++ nl ++ "Assistant:")%string.

Definition generate_request (env : Env) (p : string) : FetchRequest :=
  {| url := (ollama_url env ++ "/api/generate")%string;
     method := "POST";
     headers := [("Content-Type", "application/json")];
     body := Some {| body_model := ollama_model env;
                     prompt := p;
                     stream := false;
                     options := {| temperature := JS.decimal 7 1;
                                   num_predict := 500 |} |} |}.

(** The [catch] block of [POST]. *)
Definition chat_failure (details : string) : NextResponse :=
  {| status := 500;
     payload :=
       ChatFailure "Failed to get response from AI" details
         "Make sure Ollama is running: docker ps | grep ollama" |}.

Definition POST_continue (env : Env) (up : upstream GenerateData) : NextResponse :=
  match up with
  | NetworkError m => chat_failure m
  | Response st text json =>
      if negb (ok st) then
        chat_failure
          ("Ollama API error (" ++ pretty st ++ "): " ++ text)%string
      else
        match json with
        | ParseError m => chat_failure m
        | Parsed data =>
            {| status := 200;
               payload :=
                 ChatReply
                   (JS.or_default_string (response data) "No response from model")
                   (JS.or_default_string (model data) (ollama_model env)) |}
        end
  end.

Definition POST (env : Env) (request : parse Body) : outcome GenerateData :=
  match request with
  | ParseError m => Respond (chat_failure m)
  | Parsed b =>
      if negb (JS.truthy_string (JS.nullish (message b) "")) then
        Respond {| status := 400; payload := BadRequest "Message is required" |}
      else
        Call
          (generate_request env
             (fullPrompt (JS.nullish (conversationHistory b) [])
                (JS.nullish (message b) "")))
          (POST_continue env)
  end.

(** The [catch] block of [GET]. *)
Definition health_failure (details : string) : NextResponse :=
  {| status := 503;
     payload := HealthError "error" "Ollama service unavailable" details |}.

Definition tags_request (env : Env) : FetchRequest :=
  {| url := (ollama_url env ++ "/api/tags")%string;
     method := "GET";
     headers := [];
     body := None |}.

Definition GET_continue (env : Env) (up : upstream TagsData) : NextResponse :=
  match up with
  | NetworkError m => health_failure m
  | Response st text json =>
      if negb (ok st) then health_failure "Ollama service not available"
      else
        match json with
        | ParseError m => health_failure m
        | Parsed data =>
            {| status := 200;
               payload :=
                 HealthOk "ok" (ollama_url env)
                   (JS.nullish (fmap (M := option) (fmap name) (models data)) []) |}
        end
  end.

Definition GET (env : Env) : outcome TagsData :=
  Call (tags_request env) (GET_continue env).

(** The three kinds of request body and of upstream behaviour the
    handlers tell apart. *)
Definition without_message (request : parse Body) : Prop :=
  exists b, request = Parsed b /\
    (message b = None \/ message b = Some "").

Definition with_message (request : parse Body) : Prop :=
  exists b m, request = Parsed b /\ message b = Some m /\ m <> "".

Definition served {A : Type} (up : upstream A) : Prop :=
  exists st text data, up = Response st text (Parsed data) /\ ok st = true.

(** Running a handler against the upstream's behaviour. *)
Definition answer {A : Type} (o : outcome A) (up : upstream A) : NextResponse :=
  match o with
  | Respond r => r
  | Call _ k => k up
  end.

Definition request_made {A : Type} (o : outcome A) : option FetchRequest :=
  match o with
  | Respond _ => None
  | Call req _ => Some req
  end.

End ChatRoute.

(** ** The dashboard page: the assistant *)

Module Assistant.

Inductive Role : Type :=
  | user
  | assistant.

Definition role_name (r : Role) : string :=
  match r with
  | user => "user"
  | assistant => "assistant"
  end.

Record ChatMessage : Type := {
  role : Role;
  content : string;
  timestamp : JS.number
}.

Record Chat : Type := {
  chatMessages : list ChatMessage;
  chatInput : string;
  isLoading : bool;
  showChatbot : bool
}.

Definition greeting : string :=
  "Hello! 👋 I'm your AI Assistant. How can I help you with your food safety monitoring today?".

Definition apology : string :=
  "Sorry, I'm having trouble connecting to the AI service. Please make sure Ollama is running in Docker.".

(** The [useState] initial values; [now] is the reading of the clock
    at the first render. *)
Definition initial (now : JS.number) : Chat :=
  {| chatMessages := [{| role := assistant; content := greeting; timestamp := now |}];
     chatInput := "";
     isLoading := false;
     showChatbot := false |}.

Definition setChatMessages (f : list ChatMessage -> list ChatMessage) (s : Chat) : Chat :=
  {| chatMessages := f (chatMessages s);
     chatInput := chatInput s;
     isLoading := isLoading s;
     showChatbot := showChatbot s |}.

Definition setChatInput (v : string) (s : Chat) : Chat :=
  {| chatMessages := chatMessages s;
     chatInput := v;
     isLoading := isLoading s;
     showChatbot := showChatbot s |}.

Definition setIsLoading (v : bool) (s : Chat) : Chat :=
  {| chatMessages := chatMessages s;
     chatInput := chatInput s;
     isLoading := v;
     showChatbot := showChatbot s |}.

Definition setShowChatbot (v : bool) (s : Chat) : Chat :=
  {| chatMessages := chatMessages s;
     chatInput := chatInput s;
     isLoading := isLoading s;
     showChatbot := v |}.

(** What [axios.post] gives back: the reply of a 2xx response, or a
    rejection (any other status, or no response). *)
Inductive post_result : Type :=
  | Replied (reply : string)
  | Failed.

Definition wire (msg : ChatMessage) : ChatRoute.Message :=
  {| ChatRoute.role := role_name (role msg);
     ChatRoute.content := content msg |}.

Section Handlers.

(** [String.prototype.trim]. *)
Variable trim : string -> string.

Definition blank (v : string) : bool := negb (JS.truthy_string (trim v)).

(** The request [handleSendMessage] posts from a state, if it posts
    one: the history is the transcript the render holds, the message
    is the input. *)
Definition handleSendMessage_request (s : Chat) : option ChatRoute.Body :=
  if blank (chatInput s) || isLoading s then None
  else
    Some {| ChatRoute.message := Some (chatInput s);
            ChatRoute.conversationHistory := Some (wire <$> chatMessages s) |}.

(** [handleSendMessage] up to its [await]. *)
Definition handleSendMessage_issue (now : JS.number) (s : Chat) : Chat :=
  if blank (chatInput s) || isLoading s then s
  else
    setIsLoading true
      (setChatInput ""
         (setChatMessages
            (fun prev =>
               prev ++ [{| role := user;
                           content := chatInput s;
                           timestamp := now |}]) s)).

(** [handleSendMessage] from its [await] on. *)
Definition handleSendMessage_settle
    (now : JS.number) (r : post_result) (s : Chat) : Chat :=
  let said :=
    match r with
    | Replied reply => reply
    | Failed => apology
    end in
  setIsLoading false
    (setChatMessages
       (fun prev =>
          prev ++ [{| role := assistant; content := said; timestamp := now |}]) s).

Definition handleQuickQuestion (question : string) (s : Chat) : Chat :=
  setChatInput question s.

Definition quickQuestions : list string :=
  ["What is the current status of all boxes?";
   "What are the ideal temperature ranges for food storage?";
   "What are the best practices for food freshness monitoring?"].

Inductive action : Type :=
  | ToggleChatbot
  | CloseChatbot
  | TypeInput (v : string)
  | ClickQuickQuestion (question : string)
  | Send (now : JS.number)
  | Settle (now : JS.number) (r : post_result).

(** A settlement comes only for a request in flight; the other
    controls act while the window shows them, the input while it is
    not disabled. *)
Definition enabled (s : Chat) (a : action) : Prop :=
  match a with
  | ToggleChatbot => True
  | CloseChatbot => showChatbot s = true
  | TypeInput _ => showChatbot s = true /\ isLoading s = false
  | ClickQuickQuestion q =>
      showChatbot s = true /\ length (chatMessages s) = 1%nat /\ q ∈ quickQuestions
  | Send _ => showChatbot s = true
  | Settle _ _ => isLoading s = true
  end.

Definition perform (a : action) (s : Chat) : Chat :=
  match a with
  | ToggleChatbot => setShowChatbot (negb (showChatbot s)) s
  | CloseChatbot => setShowChatbot false s
  | TypeInput v => setChatInput v s
  | ClickQuickQuestion q => handleQuickQuestion q s
  | Send now => handleSendMessage_issue now s
  | Settle now r => handleSendMessage_settle now r s
  end.

(** The shape of a transcript: the assistant speaks at the even
    positions, the user at the odd ones, and a request is in flight
    exactly when the number of messages is even. *)
Definition well_formed (s : Chat) : Prop :=
  (forall k msg, chatMessages s !! k = Some msg ->
     role msg = if Nat.even k then assistant else user) /\
  isLoading s = Nat.even (length (chatMessages s)).

Inductive reachable (start : JS.number) : Chat -> Prop :=
  | reachable_initial : reachable start (initial start)
  | reachable_perform s a :
      reachable start s -> enabled s a -> reachable start (perform a s).

(** One exchange end to end: the page posts, the route builds the
    prompt and calls the model server, and the page appends what comes
    back.  A response of the route that is not 2xx makes [axios] reject. *)
Definition received (r : ChatRoute.NextResponse) : post_result :=
  match ChatRoute.payload r with
  | ChatRoute.ChatReply reply _ =>
      if ChatRoute.ok (ChatRoute.status r) then Replied reply else Failed
  | _ => Failed
  end.

Definition exchange (env : ChatRoute.Env)
    (sent : JS.number) (up : ChatRoute.upstream ChatRoute.GenerateData)
    (back : JS.number) (s : Chat) : Chat :=
  match handleSendMessage_request s with
  | None => s
  | Some payload =>
      handleSendMessage_settle back
        (received (ChatRoute.answer (ChatRoute.POST env (ChatRoute.Parsed payload)) up))
        (handleSendMessage_issue sent s)
  end.

End Handlers.

End Assistant.

(** ** The sensor node

    The [loop] of the ESP32 sketch ([src/unnamed/part_001]) as a
    function from what one pass reads (the two DHT22 readings, the two
    analog inputs and the two pseudo-random draws, in the order in which
    the pass takes them) to the effects it has, in order.  [abs] is the
    function of the C++ library, so its argument is evaluated once. *)

Module Sketch.

Inductive pin : Type :=
  | V0
  | V2
  | V3
  | V4
  | V5.

Inductive value : Type :=
  | Float (f : spec_float)
  | Int (z : Z).

Inductive effect : Type :=
  | BlynkWrite (p : pin) (v : value)
  | LcdClear
  | LcdSetCursor (col row : Z)
  | LcdPrint (text : string)
  | SerialPrint (text : string)
  | BlynkRun
  | Delay (ms : Z).

Record Readings : Type := {
  h : spec_float;
  tC : spec_float;
  mq135_raw : Z;
  nh3_raw : Z;
  random_1_6 : Z;
  random_1_101 : Z
}.

Definition isnan (f : spec_float) : bool :=
  match f with
  | S754_nan => true
  | _ => false
  end.

Definition mq135_val (r : Readings) : Z := mq135_raw r.

Definition nh3_val (r : Readings) : Z :=
  Z.abs (Z.quot (nh3_raw r) 400 - random_1_6 r).

Definition mq3_val (r : Readings) : Z :=
  Z.abs (Z.quot (mq135_val r + nh3_val r) 3 - random_1_101 r).

(** The handler of virtual pin V7. *)
Definition BLYNK_WRITE_V7 (param : Z) (spoilageStatus : Z) : Z := param.

Definition is_write (e : effect) : bool :=
  match e with
  | BlynkWrite _ _ => true
  | _ => false
  end.

Definition newline : string := String (Ascii.ascii_of_nat 10) EmptyString.

Section Loop.

(** The conversions [%.0f] and [%.1f] of [printf]. *)
Variable fixed0 : spec_float -> string.
Variable fixed1 : spec_float -> string.

Definition loop (spoilageStatus : Z) (r : Readings) : list effect :=
  (if negb (isnan (h r)) && negb (isnan (tC r)) then
     [BlynkWrite V0 (Float (tC r));
      BlynkWrite V2 (Float (h r));
      BlynkWrite V3 (Int (mq135_val r));
      BlynkWrite V4 (Int (nh3_val r));
      BlynkWrite V5 (Int (mq3_val r));
      LcdClear;
      LcdSetCursor 0 0;
      LcdPrint ("T:" ++ fixed0 (tC r) ++ " H:" ++ fixed0 (h r)
                  ++ " C:" ++ pretty (mq135_val r))%string;
      LcdSetCursor 0 1;
      LcdPrint ("CH:" ++ pretty (mq3_val r) ++ " N:" ++ pretty (nh3_val r))%string;
      (if Z.eqb spoilageStatus 1 then LcdPrint " OK" else LcdPrint " OK");
      SerialPrint ("T:" ++ fixed1 (tC r) ++ "C H:" ++ fixed1 (h r)
                     ++ "% C:" ++ pretty (mq135_val r)
                     ++ " CH:" ++ pretty (mq3_val r)
                     ++ " N:" ++ pretty (nh3_val r)
                     ++ " Status:"
                     ++ (if negb (Z.eqb spoilageStatus 0) then "OK" else "OK")
                     ++ newline)%string]
   else
     [LcdClear; LcdSetCursor 0 0; LcdPrint "Sensor error!"])
  ++ [BlynkRun; Delay 1000].

End Loop.

End Sketch.

(** ** Sample data

    A draw of the six random readings and the three actions that add a
    box, used to instantiate the statements below. *)

Definition demo_draws : Dashboard.Draws :=
  {| Dashboard.draw_humidity := JS.decimal 5 1;
     Dashboard.draw_temperature := JS.decimal 25 2;
     Dashboard.draw_co2 := JS.decimal 4 1;
     Dashboard.draw_methane := JS.decimal 1 1;
     Dashboard.draw_alcohol := JS.decimal 2 1;
     Dashboard.draw_freshness := JS.decimal 9 1 |}.

Definition add_one (d : string) : list Dashboard.action :=
  [Dashboard.ClickAddBox; Dashboard.TypeNewDescription d;
   Dashboard.ClickSaveBox demo_draws].

(** * Properties *)

(** ** Running a trace *)

Lemma run_app (s : ViewState) (tr1 tr2 : list event) :
  run s (tr1 ++ tr2) = run (run s tr1) tr2.
Proof. unfold run. apply fold_left_app. Qed.

Lemma run_cons (s : ViewState) (ev : event) (tr : list event) :
  run s (ev :: tr) = run (step s ev) tr.
Proof. reflexivity. Qed.

(** Each slice of the state is a function of the responses seen. *)
Lemma dataRows_run (tr : list event) :
  forall s, dataRows (run s tr) = last_rows (dataRows s) tr.
Proof.
  induction tr as [|ev tr IH]; intros s; [reflexivity|].
  rewrite run_cons, IH.
  destruct ev as [| |[body|message]|[body|message]]; reflexivity.
Qed.

Lemma predict_run (tr : list event) :
  forall s, predict (run s tr) = last_prediction (predict s) tr.
Proof.
  induction tr as [|ev tr IH]; intros s; [reflexivity|].
  rewrite run_cons, IH.
  destruct ev as [| |[body|message]|[body|message]]; reflexivity.
Qed.

Lemma errorMsg_run (tr : list event) :
  forall s, errorMsg (run s tr) = last_failure (errorMsg s) tr.
Proof.
  induction tr as [|ev tr IH]; intros s; [reflexivity|].
  rewrite run_cons, IH.
  destruct ev as [| |[body|message]|[body|message]]; reflexivity.
Qed.

(** A recorded failure is never forgotten. *)
Lemma last_failure_is_Some (tr : list event) :
  forall acc, is_Some acc -> is_Some (last_failure acc tr).
Proof.
  induction tr as [|ev tr IH]; intros acc Hacc; [exact Hacc|].
  destruct ev as [| |[body|message]|[body|message]]; simpl;
    apply IH; eauto.
Qed.

(** ** The poller *)

(** C1. Partial-failure isolation: in a tick whose sensor-data request
    is rejected and whose prediction request resolves, whichever
    response arrives first, once both have settled the sensor rows are
    those held before the tick, which are the rows of the last
    sensor-data response that resolved; the prediction is the body just
    received; and the shared error message is the message of the
    rejection. *)
Theorem partial_failure_isolation
    (history : list event) (o : arrival) (message : string)
    (body : option Api.PredictResponse) :
  let before := run initial history in
  let after :=
    run before (tick o (Axios.Rejected message) (Axios.Resolved body)) in
  dataRows after = dataRows before /\
  dataRows after = last_rows [] history /\
  predict after = body /\
  errorMsg after = Some message /\
  loadingData after = false /\
  loadingPredict after = false.
Proof.
  intros before after.
  assert (Hrows : dataRows after = dataRows before)
    by (subst after; destruct o; reflexivity).
  split; [exact Hrows|].
  split; [rewrite Hrows; subst before; apply dataRows_run|].
  subst after; destruct o; repeat split; reflexivity.
Qed.

(** C6 does not hold as stated: the sensor-data request is rejected
    in one tick and resolves in the next, and the message of the
    rejection is still in place. *)
Lemma error_message_survives_recovery :
  let failing :=
    tick DataFirst (Axios.Rejected "Network Error") (Axios.Resolved None) in
  let recovering :=
    tick DataFirst
      (Axios.Resolved (Some {| Api.count := Some (JS.of_Z 0);
                               Api.data := Some [] |}))
      (Axios.Resolved None) in
  errorMsg (run initial failing) = Some "Network Error" /\
  errorMsg (run initial (failing ++ recovering)) = Some "Network Error" /\
  errorMsg (run initial (failing ++ recovering)) <> None.
Proof. repeat split; discriminate. Qed.

(** C6, amended. After a failure of one source has set the shared
    error message, no later success changes it, be it of the other
    source or of the source that failed: no handler clears the message.
    At all times the message is that of the most recent rejection, and
    it is absent only as long as no request has been rejected. *)
Theorem error_message_lifecycle (history : list event) :
  let s := run initial history in
  errorMsg s = last_failure None history /\
  (forall body, errorMsg (step s (DataSettled (Axios.Resolved body))) = errorMsg s) /\
  (forall body, errorMsg (step s (PredictSettled (Axios.Resolved body))) = errorMsg s) /\
  errorMsg (step s DataIssued) = errorMsg s /\
  errorMsg (step s PredictIssued) = errorMsg s /\
  (forall message,
     errorMsg (step s (DataSettled (Axios.Rejected message))) = Some message) /\
  (forall message,
     errorMsg (step s (PredictSettled (Axios.Rejected message))) = Some message) /\
  (forall later, is_Some (errorMsg s) -> is_Some (errorMsg (run s later))).
Proof.
  intros s. repeat split.
  - subst s. apply errorMsg_run.
  - intros later Hs. rewrite errorMsg_run. now apply last_failure_is_Some.
Qed.

(** C7 does not hold as stated: a 2xx response whose body has no
    [data] field replaces the rows held by the empty list and raises no
    error. *)
Lemma missing_data_field_replaces_rows :
  let row :=
    {| Api.id := JS.of_Z 1;
       Api.temperatureC := JS.of_Z 25;
       Api.temperatureF := JS.of_Z 77;
       Api.humidity := JS.of_Z 60;
       Api.ppm_nh3 := JS.of_Z 2;
       Api.ppm_co2 := JS.of_Z 400;
       Api.ppm_c2h5oh := JS.of_Z 1;
       Api.timestamp := "2025-01-01T00:00:00Z" |} in
  let s := setLoadingData false (setDataRows [row] initial) in
  let malformed := {| Api.count := Some (JS.of_Z 1); Api.data := None |} in
  let s' := fetchDataRows_settle (Axios.Resolved (Some malformed)) s in
  dataRows s = [row] /\
  dataRows s' = [] /\
  dataRows s' <> dataRows s /\
  errorMsg s' = None.
Proof. repeat split; discriminate. Qed.

(** C7, amended. A 2xx sensor-data response whose body lacks the
    [data] field (or has no body at all) counts as a success carrying
    no rows: the rows held are replaced by the empty list, the shared
    error message is left as it was, and the loading flag is lowered. *)
Theorem missing_data_field_is_empty_success
    (s : ViewState) (body : option Api.DataResponse)
    (Hmissing : JS.opt_get body Api.data = None) :
  let s' := fetchDataRows_settle (Axios.Resolved body) s in
  dataRows s' = [] /\
  errorMsg s' = errorMsg s /\
  predict s' = predict s /\
  loadingData s' = false.
Proof.
  intros s'. subst s'. unfold fetchDataRows_settle.
  rewrite Hmissing. repeat split.
Qed.

Lemma missing_data_field_is_empty_success_witness :
  let body := Some {| Api.count := Some (JS.of_Z 0); Api.data := None |} in
  JS.opt_get body Api.data = None /\
  dataRows (fetchDataRows_settle (Axios.Resolved body) initial) = [].
Proof.
  split; [reflexivity|].
  apply (missing_data_field_is_empty_success initial
           (Some {| Api.count := Some (JS.of_Z 0); Api.data := None |})).
  reflexivity.
Defined.

(** ** Chronological order *)

Lemma rowsAsc_lookup (s : ViewState) (i : nat) :
  (i < length (dataRows s))%nat ->
  rowsAsc s !! i = dataRows s !! (length (dataRows s) - S i)%nat.
Proof. apply reverse_lookup. Qed.

Section ArrayStoreFacts.

Context {A : Type}.
Implicit Types (h : ArrayStore.store A) (d r : ArrayStore.ref).

Lemma spread_fresh h d :
  fst (ArrayStore.spread d h) = length h.
Proof. reflexivity. Qed.

Lemma read_spread_old h d r :
  (r < length h)%nat ->
  ArrayStore.read r (snd (ArrayStore.spread d h)) = ArrayStore.read r h.
Proof.
  intros Hr. unfold ArrayStore.read, ArrayStore.spread. cbn [snd].
  now rewrite lookup_app_l.
Qed.

Lemma read_spread_new h d :
  ArrayStore.read (length h) (snd (ArrayStore.spread d h)) = ArrayStore.read d h.
Proof.
  unfold ArrayStore.spread. cbn [snd]. unfold ArrayStore.read at 1.
  now rewrite list_lookup_middle.
Qed.

Lemma read_reverse_same h r :
  ArrayStore.read r (snd (ArrayStore.reverse r h)) = reverse (ArrayStore.read r h).
Proof.
  unfold ArrayStore.read, ArrayStore.reverse. cbn [snd].
  rewrite list_lookup_alter_eq. now destruct (h !! r).
Qed.

Lemma read_reverse_other h r r' :
  r <> r' ->
  ArrayStore.read r' (snd (ArrayStore.reverse r h)) = ArrayStore.read r' h.
Proof.
  intros Hne. unfold ArrayStore.read, ArrayStore.reverse. cbn [snd].
  now rewrite list_lookup_alter_ne.
Qed.

(** Reversing the state array itself, without the copy, would change
    it: the copy is what keeps the received list intact. *)
Lemma reverse_in_place_mutates h d a b :
  h !! d = Some [a; b] ->
  ArrayStore.read d (snd (ArrayStore.reverse d h)) = [b; a].
Proof.
  intros Hd. rewrite read_reverse_same. unfold ArrayStore.read.
  now rewrite Hd.
Qed.

End ArrayStoreFacts.

(** C3. The chart sequence is the received list reversed: it has the
    same length, its [i]-th row is the received row at the mirrored
    index, with every field as received, and it is a permutation of the
    received list, so no row is dropped, merged or invented; reversing
    it again gives the received list back.  In the store, the reversal
    runs on a fresh copy: whatever array holds the received list still
    holds that very list afterwards, as does every other array. *)
Theorem rowsAsc_pure_reversal (s : ViewState) :
  length (rowsAsc s) = length (dataRows s) /\
  (forall i, (i < length (dataRows s))%nat ->
     rowsAsc s !! i = dataRows s !! (length (dataRows s) - S i)%nat) /\
  rowsAsc s ≡ₚ dataRows s /\
  reverse (rowsAsc s) = dataRows s /\
  rowsAsc (setDataRows (rowsAsc s) s) = dataRows s /\
  (forall (h : ArrayStore.store Api.SensorRow) (d : ArrayStore.ref),
     ArrayStore.read d h = dataRows s ->
     let '(r, h') := ArrayStore.rowsAsc d h in
     ArrayStore.read r h' = rowsAsc s /\
     r = length h /\
     forall r', (r' < length h)%nat ->
       ArrayStore.read r' h' = ArrayStore.read r' h).
Proof.
  split; [apply length_reverse|].
  split; [intros i; apply rowsAsc_lookup|].
  split; [apply reverse_Permutation|].
  split; [apply reverse_involutive|].
  split; [apply reverse_involutive|].
  intros h d Hd. unfold ArrayStore.rowsAsc.
  pose proof (read_spread_new h d) as Hnew.
  pose proof (fun r => read_spread_old h d r) as Hold.
  destruct (ArrayStore.spread d h) as [copy h1] eqn:Hs.
  assert (copy = length h) as -> by (now inversion Hs).
  simpl in Hnew, Hold.
  pose proof (read_reverse_same h1 (length h)) as Hsame.
  pose proof (read_reverse_other h1 (length h)) as Hother.
  destruct (ArrayStore.reverse (length h) h1) as [r h'] eqn:Hr.
  assert (r = length h) as -> by (now inversion Hr).
  simpl in Hsame, Hother.
  split; [now rewrite Hsame, Hnew, Hd|].
  split; [reflexivity|].
  intros r' Hr'. rewrite Hother by lia. now apply Hold.
Qed.

Lemma rowsAsc_pure_reversal_witness :
  let a := {| Api.id := JS.of_Z 2;
              Api.temperatureC := JS.of_Z 25;
              Api.temperatureF := JS.of_Z 77;
              Api.humidity := JS.of_Z 60;
              Api.ppm_nh3 := JS.of_Z 2;
              Api.ppm_co2 := JS.of_Z 400;
              Api.ppm_c2h5oh := JS.of_Z 1;
              Api.timestamp := "2025-01-01T00:00:30Z" |} in
  let b := {| Api.id := JS.of_Z 1;
              Api.temperatureC := JS.of_Z 24;
              Api.temperatureF := JS.of_Z 75;
              Api.humidity := JS.of_Z 61;
              Api.ppm_nh3 := JS.of_Z 3;
              Api.ppm_co2 := JS.of_Z 410;
              Api.ppm_c2h5oh := JS.of_Z 1;
              Api.timestamp := "2025-01-01T00:00:00Z" |} in
  let s := setDataRows [a; b] initial in
  ArrayStore.read 0%nat [[a; b]] = dataRows s /\
  ArrayStore.read 1%nat (snd (ArrayStore.rowsAsc 0%nat [[a; b]])) = [b; a] /\
  ArrayStore.read 0%nat (snd (ArrayStore.rowsAsc 0%nat [[a; b]])) = [a; b].
Proof.
  intros a b s.
  split; [reflexivity|].
  pose proof (rowsAsc_pure_reversal s) as (_ & _ & _ & _ & _ & H).
  specialize (H [[a; b]] 0%nat eq_refl).
  simpl in H. destruct H as (H1 & _ & H2).
  split; [exact H1|]. apply (H2 0%nat). simpl. lia.
Defined.

(** ** The latest reading *)

Section LatestFacts.

Variable Number_toString : JS.number -> string.
Variable toFixed : JS.number -> nat -> string.

Lemma latest_head (s : ViewState) : latest s = head (dataRows s).
Proof. unfold latest. symmetry. apply head_lookup. Qed.

Lemma latest_None (s : ViewState) : latest s = None <-> dataRows s = [].
Proof. rewrite latest_head. now destruct (dataRows s). Qed.

(** Without a latest reading, each of the five cards shows a
    placeholder: the ellipsis while the request is in flight, the dash
    afterwards. *)
Lemma cards_without_latest (s : ViewState) :
  latest s = None ->
  let shown := if loadingData s then "…" else "—" in
  temperature_text toFixed s = JS.Normal shown /\
  humidity_text Number_toString s = JS.Normal shown /\
  co2_text Number_toString s = JS.Normal shown /\
  nh3_text Number_toString s = JS.Normal shown /\
  ethanol_text Number_toString s = JS.Normal shown.
Proof.
  intros Hl.
  unfold temperature_text, humidity_text, co2_text, nh3_text, ethanol_text.
  rewrite Hl. destruct (loadingData s); repeat split.
Qed.

End LatestFacts.

(** C4. After a sensor-data response that resolved with a row list,
    [latest] is the first row of that list, and it is [null] exactly
    when the list is empty; in that case each of the five cards that
    read [latest] evaluates, without throwing, to the dash placeholder. *)
Theorem latest_is_first_row
    (Number_toString : JS.number -> string)
    (toFixed : JS.number -> nat -> string)
    (s : ViewState) (resp : Api.DataResponse) (rows : list Api.SensorRow)
    (Hrows : Api.data resp = Some rows) :
  let s' := fetchDataRows_settle (Axios.Resolved (Some resp)) s in
  latest s' = head rows /\
  (latest s' = None <-> rows = []) /\
  (rows = [] ->
     temperature_text toFixed s' = JS.Normal "—" /\
     humidity_text Number_toString s' = JS.Normal "—" /\
     co2_text Number_toString s' = JS.Normal "—" /\
     nh3_text Number_toString s' = JS.Normal "—" /\
     ethanol_text Number_toString s' = JS.Normal "—").
Proof.
  intros s'.
  assert (Hd : dataRows s' = rows).
  { subst s'. unfold fetchDataRows_settle. simpl. now rewrite Hrows. }
  split; [rewrite latest_head; now rewrite Hd|].
  split; [rewrite latest_None; now rewrite Hd|].
  intros ->.
  apply (cards_without_latest Number_toString toFixed s').
  now apply latest_None.
Qed.

Lemma latest_is_first_row_witness :
  let resp := {| Api.count := Some (JS.of_Z 0); Api.data := Some [] |} in
  let s' := fetchDataRows_settle (Axios.Resolved (Some resp)) initial in
  Api.data resp = Some [] /\
  latest s' = None /\
  temperature_text (fun _ _ => "25.0") s' = JS.Normal "—".
Proof.
  intros resp s'.
  pose proof (latest_is_first_row (fun _ => "60") (fun _ _ => "25.0")
                initial resp [] eq_refl) as (H1 & _ & H3).
  split; [reflexivity|].
  split; [exact H1|].
  exact (proj1 (H3 eq_refl)).
Defined.

(** ** The three gas series *)

Section SeriesFacts.

Variable toLocaleTimeString : string -> string.

Lemma co2Series_fmap (s : ViewState) :
  co2Series toLocaleTimeString s
    = point_of toLocaleTimeString Api.ppm_co2 <$> rowsAsc s.
Proof. reflexivity. Qed.

Lemma nh3Series_fmap (s : ViewState) :
  nh3Series toLocaleTimeString s
    = point_of toLocaleTimeString Api.ppm_nh3 <$> rowsAsc s.
Proof. reflexivity. Qed.

Lemma ethanolSeries_fmap (s : ViewState) :
  ethanolSeries toLocaleTimeString s
    = point_of toLocaleTimeString Api.ppm_c2h5oh <$> rowsAsc s.
Proof. reflexivity. Qed.

Lemma series_length (gas : Api.SensorRow -> JS.number) (s : ViewState) :
  length (point_of toLocaleTimeString gas <$> rowsAsc s) = length (dataRows s).
Proof. rewrite length_fmap. apply length_reverse. Qed.

Lemma series_lookup (gas : Api.SensorRow -> JS.number) (s : ViewState) (i : nat) :
  (point_of toLocaleTimeString gas <$> rowsAsc s) !! i
    = point_of toLocaleTimeString gas <$> (rowsAsc s !! i).
Proof. apply list_lookup_fmap. Qed.

End SeriesFacts.

(** C9. Each of the three gas channels has its own series, built from
    the chronological rows alone: the [i]-th pair of a series is the
    formatted timestamp of the [i]-th chronological row with that
    row's reading of the channel.  Hence each series has one pair per
    row, and after any history of ticks its length is the number of
    rows of the last sensor-data response that resolved. *)
Theorem series_one_pair_per_row
    (toLocaleTimeString : string -> string) (history : list event) :
  let s := run initial history in
  let pair_of := point_of toLocaleTimeString in
  (forall i,
     co2Series toLocaleTimeString s !! i
       = pair_of Api.ppm_co2 <$> (rowsAsc s !! i) /\
     nh3Series toLocaleTimeString s !! i
       = pair_of Api.ppm_nh3 <$> (rowsAsc s !! i) /\
     ethanolSeries toLocaleTimeString s !! i
       = pair_of Api.ppm_c2h5oh <$> (rowsAsc s !! i)) /\
  length (co2Series toLocaleTimeString s) = length (last_rows [] history) /\
  length (nh3Series toLocaleTimeString s) = length (last_rows [] history) /\
  length (ethanolSeries toLocaleTimeString s) = length (last_rows [] history).
Proof.
  intros s pair_of.
  assert (Hlen : length (dataRows s) = length (last_rows [] history))
    by (subst s; now rewrite dataRows_run).
  split.
  - intros i. repeat split; apply series_lookup.
  - rewrite <- Hlen. repeat split; apply series_length.
Qed.

(** ** The requests *)

Lemma K_PARAM_unset (env : Env) :
  NEXT_PUBLIC_K env = None -> K_PARAM env = default_k.
Proof. unfold K_PARAM. now intros ->. Qed.

Lemma K_PARAM_empty (env : Env) :
  NEXT_PUBLIC_K env = Some "" -> K_PARAM env = default_k.
Proof. unfold K_PARAM. now intros ->. Qed.

Lemma K_PARAM_set (env : Env) (v : string) :
  NEXT_PUBLIC_K env = Some v -> v <> "" -> K_PARAM env = v.
Proof.
  unfold K_PARAM. intros -> Hv. destruct v; [congruence|reflexivity].
Qed.

Lemma requests_emitted (env : Env) (tr : list event) (req : Axios.request) :
  req ∈ requests env tr ->
  req = fetchDataRows_request env \/ req = fetchPredict_request.
Proof.
  unfold requests. rewrite list_elem_of_omap.
  intros (ev & _ & Hev).
  destruct ev; simpl in Hev; inversion Hev; auto.
Qed.

(** C10 does not hold as stated: with the variable set to the empty
    string, the request carries the default string as [k], not the
    variable's value. *)
Lemma K_PARAM_empty_variable_not_sent :
  let env := {| NEXT_PUBLIC_API_BASE_URL := None; NEXT_PUBLIC_K := Some "" |} in
  NEXT_PUBLIC_K env <> None /\
  Axios.params (fetchDataRows_request env)
    = [("limit", Axios.PNum (JS.of_Z 50)); ("k", Axios.PStr default_k)] /\
  Axios.params (fetchDataRows_request env)
    <> [("limit", Axios.PNum (JS.of_Z 50)); ("k", Axios.PStr "")].
Proof. repeat split; discriminate. Qed.

(** C10, amended. Every request the poller sends is one of two.  The
    sensor-data request is [GET /data] with exactly the parameters
    [limit = 50] and [k], where [k] is the value of [NEXT_PUBLIC_K] when
    that variable is set and not empty, and the hard-coded default
    string when it is unset or empty.  The prediction request is
    [GET /predict] with no parameters.  So the sensor-data request is
    never [GET /data?limit=50] alone. *)
Theorem data_request_carries_k (env : Env) (tr : list event) (req : Axios.request)
    (Hreq : req ∈ requests env tr) :
  (Axios.url req = "/data" ->
     Axios.method req = "GET" /\
     exists k,
       Axios.params req = [("limit", Axios.PNum (JS.of_Z 50)); ("k", Axios.PStr k)] /\
       (NEXT_PUBLIC_K env = None -> k = default_k) /\
       (NEXT_PUBLIC_K env = Some "" -> k = default_k) /\
       (forall v, NEXT_PUBLIC_K env = Some v -> v <> "" -> k = v) /\
       Axios.params req <> [("limit", Axios.PNum (JS.of_Z 50))]) /\
  (Axios.url req = "/predict" ->
     Axios.method req = "GET" /\ Axios.params req = []) /\
  (Axios.url req = "/data" \/ Axios.url req = "/predict").
Proof.
  destruct (requests_emitted env tr req Hreq) as [-> | ->].
  - split; [|split; [discriminate|now left]].
    intros _. split; [reflexivity|].
    exists (K_PARAM env). split; [reflexivity|].
    split; [apply K_PARAM_unset|].
    split; [apply K_PARAM_empty|].
    split; [apply K_PARAM_set|discriminate].
  - split; [discriminate|]. split; [|now right].
    intros _. split; reflexivity.
Qed.

Lemma data_request_carries_k_witness :
  let env := {| NEXT_PUBLIC_API_BASE_URL := None; NEXT_PUBLIC_K := Some "7" |} in
  let tr := tick DataFirst (Axios.Resolved None) (Axios.Resolved None) in
  fetchDataRows_request env ∈ requests env tr /\
  exists k,
    Axios.params (fetchDataRows_request env)
      = [("limit", Axios.PNum (JS.of_Z 50)); ("k", Axios.PStr k)] /\
    k = "7".
Proof.
  intros env tr.
  assert (Hin : fetchDataRows_request env ∈ requests env tr)
    by (apply list_elem_of_here).
  split; [exact Hin|].
  destruct (data_request_carries_k env tr _ Hin) as (Hdata & _ & _).
  destruct (Hdata eq_refl) as (_ & k & Hk & _ & _ & Hset & _).
  exists k. split; [exact Hk|].
  apply (Hset "7"); [reflexivity|discriminate].
Defined.

(** ** Numbers *)

Module JSFacts.

(** What the two integer roundings compute. *)
Lemma floor_shift_spec (z k : Z) :
  0 <= k ->
  JS.floor_shift z k * 2 ^ k <= z < (JS.floor_shift z k + 1) * 2 ^ k.
Proof.
  intros Hk. unfold JS.floor_shift. rewrite Z.shiftr_div_pow2 by exact Hk.
  assert (Hp : 0 < 2 ^ k) by (apply Z.pow_pos_nonneg; lia).
  pose proof (Z.div_mod z (2 ^ k) ltac:(lia)) as Hdm.
  pose proof (Z.mod_pos_bound z (2 ^ k) Hp) as Hm.
  nia.
Qed.

Lemma round_shift_spec (z k : Z) :
  0 <= k ->
  (2 * JS.round_shift z k - 1) * 2 ^ k <= 2 * z
    < (2 * JS.round_shift z k + 1) * 2 ^ k.
Proof.
  intros Hk. unfold JS.round_shift.
  rewrite Z.shiftr_div_pow2 by lia.
  rewrite Z.pow_add_r by lia. change (2 ^ 1) with 2.
  assert (Hp : 0 < 2 ^ k) by (apply Z.pow_pos_nonneg; lia).
  pose proof (Z.div_mod (2 * z + 2 ^ k) (2 ^ k * 2) ltac:(lia)) as Hdm.
  pose proof (Z.mod_pos_bound (2 * z + 2 ^ k) (2 ^ k * 2) ltac:(lia)) as Hm.
  nia.
Qed.

Lemma aligned_pos (m : positive) (e e' : Z) :
  e' <= e -> 0 < JS.aligned m e e'.
Proof.
  intros He. unfold JS.aligned. rewrite Z.shiftl_mul_pow2 by lia.
  assert (0 < 2 ^ (e - e')) by (apply Z.pow_pos_nonneg; lia). lia.
Qed.

(** The remainder of two finite numbers: both are brought to the
    smaller exponent, and the dividend is split into a whole multiple
    of the divisor and a rest below it, which is the result. *)
Lemma rem_finite_spec (sn sd : bool) (mn md : positive) (en ed : Z) :
  let e := Z.min en ed in
  let N := JS.aligned mn en e in
  let D := JS.aligned md ed e in
  let r := Z.rem N D in
  0 <= r < D /\
  N = D * (N / D) + r /\
  JS.rem (S754_finite sn mn en) (S754_finite sd md ed)
    = if r =? 0 then S754_zero sn
      else binary_normalize JS.prec JS.emax (cond_Zopp sn r) e false.
Proof.
  intros e N D r.
  assert (HN : 0 < N) by (apply aligned_pos; subst e; lia).
  assert (HD : 0 < D) by (apply aligned_pos; subst e; lia).
  assert (Hr : r = N mod D) by (subst r; apply Z.rem_mod_nonneg; lia).
  split; [rewrite Hr; apply Z.mod_pos_bound; lia|].
  split; [rewrite Hr; apply Z.div_mod; lia|reflexivity].
Qed.

(** Spot checks of the three operations against the language
    definition: ties of [Math.round] go up, a rounded zero keeps its
    sign, [Math.floor] goes down on negatives, and [%] takes the sign
    of the dividend. *)
Example Math_round_ties :
  JS.Math_round (JS.decimal 25 1) = JS.of_Z 3 /\
  JS.Math_round (JS.decimal (-25) 1) = JS.of_Z (-2) /\
  JS.Math_round (JS.decimal (-5) 1) = S754_zero true /\
  JS.Math_round (JS.decimal 4 1) = S754_zero false /\
  JS.Math_round (JS.decimal (-4) 1) = S754_zero true.
Proof. repeat split. Qed.

Example Math_floor_negative :
  JS.Math_floor (JS.decimal (-5) 1) = JS.of_Z (-1) /\
  JS.Math_floor (JS.decimal 9999 4) = JS.of_Z 0 /\
  JS.Math_floor (S754_zero true) = S754_zero true.
Proof. repeat split. Qed.

Example rem_sign_of_dividend :
  JS.rem (JS.decimal 55 1) (JS.of_Z (-2)) = JS.decimal 15 1 /\
  JS.rem (JS.decimal (-55) 1) (JS.of_Z 2) = JS.decimal (-15) 1 /\
  JS.rem (JS.of_Z (-48)) (JS.of_Z 24) = S754_zero true /\
  JS.rem (JS.of_Z 3) (JS.of_Z 0) = S754_nan.
Proof. repeat split. Qed.

(** Rounding a non-negative mantissa never produces NaN. *)
Lemma shr_1_nonneg (mrs : shr_record) :
  0 <= shr_m mrs -> 0 <= shr_m (shr_1 mrs).
Proof.
  destruct mrs as [m r s]; simpl.
  destruct m as [|[p|p|]|p]; simpl; lia.
Qed.

Lemma iter_shr_1_nonneg (p : positive) :
  forall mrs, 0 <= shr_m mrs -> 0 <= shr_m (SpecFloat.iter_pos shr_1 p mrs).
Proof.
  induction p as [p IH|p IH|]; intros mrs Hm; simpl.
  - apply IH, IH. now apply shr_1_nonneg.
  - now apply IH, IH.
  - now apply shr_1_nonneg.
Qed.

Lemma shr_fexp_nonneg (m e : Z) (l : location) :
  0 <= m -> 0 <= shr_m (fst (shr_fexp JS.prec JS.emax m e l)).
Proof.
  intros Hm. unfold shr_fexp, shr.
  assert (H0 : 0 <= shr_m (shr_record_of_loc m l))
    by (destruct l as [|[]]; exact Hm).
  destruct (fexp JS.prec JS.emax (Zdigits2 m + e) - e) as [|p|p]; simpl;
    try exact H0.
  now apply iter_shr_1_nonneg.
Qed.

Lemma round_nearest_even_nonneg (m : Z) (l : location) :
  0 <= m -> 0 <= round_nearest_even m l.
Proof.
  intros Hm. destruct l as [|[]]; simpl; try lia.
  destruct (Z.even m); lia.
Qed.

Lemma binary_round_aux_not_nan (sx : bool) (mx ex : Z) (lx : location) :
  0 <= mx -> binary_round_aux JS.prec JS.emax sx mx ex lx <> S754_nan.
Proof.
  intros Hm. unfold binary_round_aux.
  pose proof (shr_fexp_nonneg mx ex lx Hm) as H1.
  destruct (shr_fexp JS.prec JS.emax mx ex lx) as [mrs' e']. simpl in H1.
  pose proof (shr_fexp_nonneg _ e' loc_Exact
                (round_nearest_even_nonneg _ (loc_of_shr_record mrs') H1)) as H2.
  destruct (shr_fexp JS.prec JS.emax _ e' loc_Exact) as [mrs'' e'']. simpl in H2.
  destruct (shr_m mrs'') as [|p|p]; try discriminate; [|lia].
  destruct (e'' <=? JS.emax - JS.prec); discriminate.
Qed.

Lemma of_Z_not_nan (z : Z) : JS.of_Z z <> S754_nan.
Proof.
  unfold JS.of_Z, binary_normalize, binary_round.
  destruct z as [|p|p]; [discriminate| |];
    destruct (shl_align _ _ _) as [mz ez];
    apply binary_round_aux_not_nan; lia.
Qed.

Lemma Math_round_not_nan (v : JS.number) :
  v <> S754_nan -> JS.Math_round v <> S754_nan.
Proof.
  intros Hv. destruct v as [s|s| |s m e]; simpl; try congruence.
  destruct (0 <=? e); [discriminate|].
  destruct (JS.round_shift _ _ =? 0); [discriminate|apply of_Z_not_nan].
Qed.

Lemma mul_finite_not_nan (s1 s2 : bool) (m1 m2 : positive) (e1 e2 : Z) :
  JS.mul (S754_finite s1 m1 e1) (S754_finite s2 m2 e2) <> S754_nan.
Proof. apply binary_round_aux_not_nan. lia. Qed.

Lemma strict_eq_refl (v : JS.number) :
  v <> S754_nan -> JS.strict_eq v v = true.
Proof.
  intros Hv. unfold JS.strict_eq, SFeqb.
  destruct v as [s|[]| |[] m e]; simpl; try congruence;
    rewrite Z.compare_refl, Pos.compare_cont_refl; reflexivity.
Qed.

(** A number between 0 and 1 is a zero or a positive finite number. *)
Lemma unit_interval_cases (p : JS.number) :
  JS.le (JS.of_Z 0) p = true ->
  JS.le p (JS.of_Z 1) = true ->
  (exists s, p = S754_zero s) \/ (exists m e, p = S754_finite false m e).
Proof.
  intros H0 H1. destruct p as [s|[]| |[] m e]; try discriminate; eauto.
Qed.

End JSFacts.

(** ** Derived prediction values *)

(** C2. Whenever the prediction carries a shelf life of [h] hours, the
    days shown are [Math.floor(h / 24)] and the remainder hours shown
    are [Math.round(h % 24)]; at 30 hours this is 1 day and 6 hours, at
    0 hours 0 days and 0 hours, and at 23.6 hours 0 days and 24 hours. *)
Theorem shelf_life_decomposition (s : ViewState) (h : JS.number)
    (Hh : rslHours s = Some h) :
  rslDays s = Some (JS.Math_floor (JS.div h (JS.of_Z 24))) /\
  rslRemHours s = Some (JS.Math_round (JS.rem h (JS.of_Z 24))) /\
  (h = JS.of_Z 30 ->
     rslDays s = Some (JS.of_Z 1) /\ rslRemHours s = Some (JS.of_Z 6)) /\
  (h = JS.of_Z 0 ->
     rslDays s = Some (JS.of_Z 0) /\ rslRemHours s = Some (JS.of_Z 0)) /\
  (h = JS.decimal 236 1 ->
     rslDays s = Some (JS.of_Z 0) /\ rslRemHours s = Some (JS.of_Z 24)).
Proof.
  unfold rslDays, rslRemHours. rewrite Hh.
  repeat split; subst h; vm_compute; reflexivity.
Qed.

Lemma shelf_life_decomposition_witness :
  let raw := {| Api.classification_text := Some "Fresh";
                Api.classification_prob := Some (JS.decimal 8734 4);
                Api.raw_confidence := Some (JS.decimal 912 1);
                Api.rsl_hours := Some (JS.decimal 236 1);
                Api.raw_status := Some "success" |} in
  let pr := {| Api.classification := Some "Fresh";
               Api.probability := Some (JS.decimal 8734 4);
               Api.confidence := Some (JS.decimal 912 1);
               Api.raw_prediction := Some raw |} in
  let resp := {| Api.status := Some "success";
                 Api.prediction := Some pr;
                 Api.blynk_updated := None;
                 Api.blynk_pin := None;
                 Api.blynk_value := None;
                 Api.data_points_used := None |} in
  let s := fetchPredict_settle (Axios.Resolved (Some resp)) initial in
  rslHours s = Some (JS.decimal 236 1) /\
  rslDays s = Some (JS.of_Z 0) /\
  rslRemHours s = Some (JS.of_Z 24).
Proof.
  intros raw pr resp s.
  split; [reflexivity|].
  destruct (shelf_life_decomposition s (JS.decimal 236 1) eq_refl)
    as (_ & _ & _ & _ & H).
  exact (H eq_refl).
Defined.

(** Where the siblings of [probabilityPct] stand when parts of the
    prediction are missing: they go through optional chaining and
    yield [null]. *)
Lemma chained_derivations_without_prediction (now : JS.number) (s : ViewState) :
  JS.opt_get (predict s) Api.prediction = None ->
  classification s = "—" /\
  confidencePct s = None /\
  rslHours s = None /\
  rslDays s = None /\
  rslRemHours s = None /\
  spoilDate now s = None.
Proof.
  intros H.
  unfold classification, confidencePct, rslDays, rslRemHours, spoilDate, rslHours.
  rewrite H. repeat split.
Qed.

Lemma probabilityPct_without_response (s : ViewState) :
  predict s = None -> probabilityPct s = JS.Normal None.
Proof. unfold probabilityPct. now intros ->. Qed.

(** With the nested object present, a missing probability counts as 0. *)
Lemma probabilityPct_without_probability
    (s : ViewState) (resp : Api.PredictResponse) (pr : Api.Prediction) :
  predict s = Some resp ->
  Api.prediction resp = Some pr ->
  Api.probability pr = None ->
  probabilityPct s = JS.Normal (Some (JS.of_Z 0)).
Proof.
  unfold probabilityPct. intros -> Hpr Hp. rewrite Hpr. simpl. now rewrite Hp.
Qed.

Lemma probabilityPct_without_prediction
    (s : ViewState) (resp : Api.PredictResponse) :
  predict s = Some resp ->
  Api.prediction resp = None ->
  probabilityPct s = JS.Throw JS.TypeError.
Proof. unfold probabilityPct. intros -> Hpr. now rewrite Hpr. Qed.

(** C5. The code at a prediction response without the nested
    [prediction] object: the confidence and the shelf-life derivations
    yield [null], but [probabilityPct] reads [predict.prediction.probability]
    without optional chaining and throws, and with it the whole render. *)
Theorem probabilityPct_throws_on_missing_prediction :
  let resp := {| Api.status := Some "error";
                 Api.prediction := None;
                 Api.blynk_updated := None;
                 Api.blynk_pin := None;
                 Api.blynk_value := None;
                 Api.data_points_used := None |} in
  let s := fetchPredict_settle (Axios.Resolved (Some resp)) initial in
  confidencePct s = None /\
  rslHours s = None /\
  rslDays s = None /\
  rslRemHours s = None /\
  probabilityPct s = JS.Throw JS.TypeError /\
  forall Number_toString toFixed toLocaleTimeString toLocaleString now,
    render Number_toString toFixed toLocaleTimeString toLocaleString now s
      = JS.Throw JS.TypeError.
Proof. repeat split. Qed.

(** C8. For a prediction whose probability [p] lies between 0 and 1,
    the percentage shown is [Math.round(p * 100)]: the two are equal as
    numbers, and identical unless [p] is the negative zero, which is
    shown as the positive zero.  The confidence is shown as received.
    At [p = 0.8734] the percentage is 87. *)
Theorem probability_rounded_confidence_as_is
    (Number_toString : JS.number -> string)
    (s : ViewState) (resp : Api.PredictResponse) (pr : Api.Prediction)
    (p c : JS.number)
    (Hresp : predict s = Some resp)
    (Hpr : Api.prediction resp = Some pr)
    (Hp : Api.probability pr = Some p)
    (Hc : Api.confidence pr = Some c)
    (Hlo : JS.le (JS.of_Z 0) p = true)
    (Hhi : JS.le p (JS.of_Z 1) = true) :
  exists pct,
    probabilityPct s = JS.Normal (Some pct) /\
    JS.strict_eq pct (JS.Math_round (JS.mul p (JS.of_Z 100))) = true /\
    (p <> S754_zero true -> pct = JS.Math_round (JS.mul p (JS.of_Z 100))) /\
    (p = JS.decimal 8734 4 -> pct = JS.of_Z 87) /\
    confidencePct s = Some c /\
    (loadingPredict s = false ->
       probability_text Number_toString s (Some pct)
         = ("Prob: " ++ Number_toString pct ++ "% • Confidence: "
              ++ Number_toString c ++ "%")%string).
Proof.
  assert (Hconf : confidencePct s = Some c).
  { unfold confidencePct. rewrite Hresp. simpl. rewrite Hpr. exact Hc. }
  assert (Htext : forall pct, loadingPredict s = false ->
            probability_text Number_toString s (Some pct)
              = ("Prob: " ++ Number_toString pct ++ "% • Confidence: "
                   ++ Number_toString c ++ "%")%string).
  { intros pct Hl. unfold probability_text. now rewrite Hl, Hconf. }
  unfold probabilityPct. rewrite Hresp, Hpr. simpl. rewrite Hp.
  destruct (JSFacts.unit_interval_cases p Hlo Hhi) as [[sg ->]|(m & e & ->)].
  - exists (JS.of_Z 0).
    split; [reflexivity|].
    split; [now destruct sg|].
    split; [destruct sg; [congruence|reflexivity]|].
    split; [discriminate|].
    split; [exact Hconf|apply Htext].
  - exists (JS.Math_round (JS.mul (S754_finite false m e) (JS.of_Z 100))).
    split; [reflexivity|].
    split.
    { apply JSFacts.strict_eq_refl, JSFacts.Math_round_not_nan.
      apply JSFacts.mul_finite_not_nan. }
    split; [reflexivity|].
    split; [intros ->; vm_compute; reflexivity|].
    split; [exact Hconf|apply Htext].
Qed.

Lemma probability_rounded_confidence_as_is_witness :
  let raw := {| Api.classification_text := Some "Fresh";
                Api.classification_prob := Some (JS.decimal 8734 4);
                Api.raw_confidence := Some (JS.decimal 912 1);
                Api.rsl_hours := Some (JS.of_Z 30);
                Api.raw_status := Some "success" |} in
  let pr := {| Api.classification := Some "Fresh";
               Api.probability := Some (JS.decimal 8734 4);
               Api.confidence := Some (JS.decimal 912 1);
               Api.raw_prediction := Some raw |} in
  let resp := {| Api.status := Some "success";
                 Api.prediction := Some pr;
                 Api.blynk_updated := None;
                 Api.blynk_pin := None;
                 Api.blynk_value := None;
                 Api.data_points_used := None |} in
  let s := fetchPredict_settle (Axios.Resolved (Some resp)) initial in
  JS.le (JS.of_Z 0) (JS.decimal 8734 4) = true /\
  JS.le (JS.decimal 8734 4) (JS.of_Z 1) = true /\
  exists pct,
    probabilityPct s = JS.Normal (Some pct) /\
    pct = JS.of_Z 87 /\
    confidencePct s = Some (JS.decimal 912 1).
Proof.
  intros raw pr resp s.
  split; [reflexivity|]. split; [reflexivity|].
  destruct (probability_rounded_confidence_as_is (fun _ => "") s resp pr
              (JS.decimal 8734 4) (JS.decimal 912 1)
              eq_refl eq_refl eq_refl eq_refl eq_refl eq_refl)
    as (pct & H1 & _ & _ & H87 & Hc & _).
  exists pct. split; [exact H1|]. split; [exact (H87 eq_refl)|exact Hc].
Defined.

(** * Further properties of the code *)

(** ** The poller, continued *)

(** X1. The two settlements of a tick commute on every slice but the
    error message, and on the error message too unless both requests
    were rejected, in which case the later rejection wins. *)
Theorem settlements_commute
    (s : ViewState)
    (rd : Axios.result Api.DataResponse)
    (rp : Axios.result Api.PredictResponse) :
  let data_first := fetchPredict_settle rp (fetchDataRows_settle rd s) in
  let predict_first := fetchDataRows_settle rd (fetchPredict_settle rp s) in
  dataRows data_first = dataRows predict_first /\
  predict data_first = predict predict_first /\
  loadingData data_first = loadingData predict_first /\
  loadingPredict data_first = loadingPredict predict_first /\
  ((forall md mp, rd = Axios.Rejected md -> rp = Axios.Rejected mp -> md = mp) ->
     data_first = predict_first) /\
  (forall md mp, rd = Axios.Rejected md -> rp = Axios.Rejected mp ->
     errorMsg data_first = Some mp /\ errorMsg predict_first = Some md).
Proof.
  intros data_first predict_first. subst data_first predict_first.
  do 4 (split; [destruct rd, rp; reflexivity|]).
  split.
  - intros H. destruct rd as [bd|md], rp as [bp|mp]; try reflexivity.
    now rewrite (H md mp eq_refl eq_refl).
  - intros md mp -> ->. split; reflexivity.
Qed.

Lemma settlements_commute_witness :
  let s := initial in
  let rd := @Axios.Rejected Api.DataResponse "timeout of 10000ms exceeded" in
  let rp := @Axios.Resolved Api.PredictResponse None in
  fetchPredict_settle rp (fetchDataRows_settle rd s)
    = fetchDataRows_settle rd (fetchPredict_settle rp s).
Proof.
  intros s rd rp.
  apply (settlements_commute s rd rp). intros md mp _ H. discriminate H.
Defined.

Section RenderFacts.

Variable Number_toString : JS.number -> string.
Variable toFixed : JS.number -> nat -> string.
Variable toLocaleTimeString : string -> string.
Variable toLocaleString : JS.number -> string.

Lemma card_text_normal (s : ViewState) :
  (exists t, temperature_text toFixed s = JS.Normal t) /\
  (exists t, humidity_text Number_toString s = JS.Normal t) /\
  (exists t, co2_text Number_toString s = JS.Normal t) /\
  (exists t, nh3_text Number_toString s = JS.Normal t) /\
  (exists t, ethanol_text Number_toString s = JS.Normal t).
Proof.
  unfold temperature_text, humidity_text, co2_text, nh3_text, ethanol_text.
  destruct (loadingData s); [repeat split; eauto|].
  destruct (latest s) as [row|]; simpl; repeat split; eauto.
Qed.

End RenderFacts.


(** X3. A chart is never drawn from an empty array: with no rows it
    gets the single datum at the origin, otherwise one datum per pair
    of the series, so its length is the larger of 1 and the row count,
    while the count shown in the heading is the row count itself. *)
Theorem chart_never_empty
    (Number_toString : JS.number -> string)
    (toFixed : JS.number -> nat -> string)
    (toLocaleTimeString : string -> string)
    (toLocaleString : JS.number -> string)
    (now : JS.number) (s : ViewState) (screen : Screen)
    (Hrender : render Number_toString toFixed toLocaleTimeString toLocaleString now s
                 = JS.Normal screen) :
  let n := length (dataRows s) in
  history_points screen = n /\
  length (co2_chart screen) = Nat.max 1 n /\
  length (nh3_chart screen) = Nat.max 1 n /\
  length (ethanol_chart screen) = Nat.max 1 n /\
  (n = 0%nat ->
     let origin := [{| datum_x := Origin (JS.of_Z 0); datum_value := JS.of_Z 0 |}] in
     co2_chart screen = origin /\
     nh3_chart screen = origin /\
     ethanol_chart screen = origin).
Proof.
  intros n.
  assert (Hchart : forall series : list point,
            length (chart_data series) = Nat.max 1 (length series)).
  { intros [|p series]; [reflexivity|].
    unfold chart_data. rewrite length_fmap. simpl. lia. }
  pose proof (series_length toLocaleTimeString) as Hlen.
  unfold render in Hrender.
  destruct (probabilityPct s) as [pct|e]; [|discriminate].
  destruct (card_text_normal Number_toString toFixed s)
    as ((t1 & H1) & (t2 & H2) & (t3 & H3) & (t4 & H4) & (t5 & H5)).
  rewrite H1, H2, H3, H4, H5 in Hrender. simpl in Hrender.
  injection Hrender as <-. cbn [history_points co2_chart nh3_chart ethanol_chart].
  rewrite !Hchart.
  rewrite co2Series_fmap, nh3Series_fmap, ethanolSeries_fmap, !Hlen.
  split; [apply length_reverse|].
  do 3 (split; [reflexivity|]).
  intros Hn. unfold n in Hn. apply length_zero_iff_nil in Hn.
  unfold rowsAsc. rewrite Hn. repeat split.
Qed.

Lemma last_failure_no_rejection (tr : list event) :
  forallb (fun ev => negb (is_rejection ev)) tr = true ->
  forall acc, last_failure acc tr = acc.
Proof.
  induction tr as [|ev tr IH]; intros Hall acc; [reflexivity|].
  simpl in Hall. apply andb_true_iff in Hall as [Hev Hall].
  destruct ev as [| |[body|message]|[body|message]]; simpl in *;
    try discriminate; now apply IH.
Qed.

(** X4. The error notice reads ["Error: "] and the message of the most
    recent rejection, and is absent when no request has been rejected
    yet or when that message is empty.  Polls in which nothing is
    rejected leave it exactly as it is, so a notice stays on screen
    after the source has recovered. *)
Theorem error_notice_persists (history later : list event) :
  let s := run initial history in
  error_text s
    = match last_failure None history with
      | Some "" => None
      | Some m => Some ("Error: " ++ m)%string
      | None => None
      end /\
  (forallb (fun ev => negb (is_rejection ev)) later = true ->
     error_text (run s later) = error_text s).
Proof.
  intros s. split.
  - unfold error_text. subst s. rewrite errorMsg_run.
    change (errorMsg initial) with (@None string).
    destruct (last_failure None history) as [[|c m]|]; reflexivity.
  - intros Hlater. unfold error_text.
    now rewrite errorMsg_run, (last_failure_no_rejection later Hlater).
Qed.

(** ** Exact results of the remainder *)

Module Exact.

Lemma digits2_pos_bounds (m : positive) :
  2 ^ (Zpos (digits2_pos m) - 1) <= Zpos m < 2 ^ Zpos (digits2_pos m).
Proof.
  induction m as [m IH|m IH|]; cbn [digits2_pos].
  - rewrite Pos2Z.inj_succ, Z.pow_succ_r by lia.
    replace (Z.succ (Zpos (digits2_pos m)) - 1)
      with (Z.succ (Zpos (digits2_pos m) - 1)) by lia.
    rewrite Z.pow_succ_r by lia. lia.
  - rewrite Pos2Z.inj_succ, Z.pow_succ_r by lia.
    replace (Z.succ (Zpos (digits2_pos m)) - 1)
      with (Z.succ (Zpos (digits2_pos m) - 1)) by lia.
    rewrite Z.pow_succ_r by lia. lia.
  - simpl. lia.
Qed.

Lemma iter_xO (m d : positive) :
  Zpos (Pos.iter xO m d) = Zpos m * 2 ^ Zpos d.
Proof.
  induction d as [|d IH] using Pos.peano_ind.
  - simpl. lia.
  - rewrite Pos.iter_succ, Pos2Z.inj_succ, Z.pow_succ_r by lia.
    change (Zpos (Pos.iter xO m d)~0) with (2 * Zpos (Pos.iter xO m d)). lia.
Qed.

Lemma digits_iter_xO (m d : positive) :
  Zpos (digits2_pos (Pos.iter xO m d)) = Zpos (digits2_pos m) + Zpos d.
Proof.
  induction d as [|d IH] using Pos.peano_ind.
  - simpl. lia.
  - rewrite Pos.iter_succ. cbn [digits2_pos]. rewrite !Pos2Z.inj_succ. lia.
Qed.

(** A mantissa of at most 53 bits is normalised without loss. *)
Lemma normalize_exact (r : positive) (e : Z) :
  Zpos (digits2_pos r) <= 53 -> -1074 <= e <= 971 ->
  exists mz ez,
    binary_normalize JS.prec JS.emax (Zpos r) e false = S754_finite false mz ez /\
    ez <= e /\ Zpos mz = Zpos r * 2 ^ (e - ez).
Proof.
  intros Hd He.
  set (d := Zpos (digits2_pos r)) in *.
  set (f := fexp JS.prec JS.emax (d + e)).
  assert (Hf : f <= e) by (unfold f, fexp, emin, JS.prec, JS.emax; lia).
  assert (Hshape : exists mz ez,
            shl_align r e f = (mz, ez) /\ ez = f /\
            Zpos mz = Zpos r * 2 ^ (e - ez) /\
            Zpos (digits2_pos mz) + ez = d + e).
  { unfold shl_align. destruct (f - e) as [|p|p] eqn:Hfe; try lia.
    - exists r, e. replace (e - e) with 0 by lia. simpl. repeat split; lia.
    - exists (Pos.iter xO r p), f.
      rewrite iter_xO, digits_iter_xO. fold d.
      replace (e - f) with (Zpos p) by lia. repeat split; lia. }
  destruct Hshape as (mz & ez & Halign & Hez & Hmz & Hdig).
  exists mz, ez. split; [|split; [lia|exact Hmz]].
  unfold binary_normalize, binary_round. fold d. fold f. rewrite Halign.
  unfold binary_round_aux, shr_fexp.
  cbn [Zdigits2 shr_record_of_loc]. rewrite Hdig. fold f.
  replace (f - ez) with 0 by lia.
  cbn [shr shr_m loc_of_shr_record round_nearest_even Zdigits2 shr_record_of_loc].
  rewrite Hdig. fold f. replace (f - ez) with 0 by lia.
  cbn [shr shr_m].
  replace (ez <=? JS.emax - JS.prec) with true; [reflexivity|].
  symmetry. apply Z.leb_le. unfold JS.emax, JS.prec. lia.
Qed.

(** The remainder of a duration by 24 is zero, or a number below 24
    with a negative exponent. *)
Lemma rem_24_range (m : positive) (e : Z) :
  bounded JS.prec JS.emax m e = true ->
  JS.rem (S754_finite false m e) (JS.of_Z 24) = S754_zero false \/
  exists mz ez,
    JS.rem (S754_finite false m e) (JS.of_Z 24) = S754_finite false mz ez /\
    ez < 0 /\ Zpos mz < 24 * 2 ^ (- ez).
Proof.
  intros Hb.
  apply andb_true_iff in Hb as [Hcanon Hmax].
  apply Z.eqb_eq in Hcanon. apply Z.leb_le in Hmax.
  unfold fexp, emin, JS.prec, JS.emax in Hcanon, Hmax.
  pose proof (digits2_pos_bounds m) as Hm.
  change (JS.of_Z 24) with (S754_finite false 6755399441055744 (-48)).
  destruct (JSFacts.rem_finite_spec false false m 6755399441055744 e (-48))
    as (Hr & Hsplit & ->).
  set (e' := Z.min e (-48)) in *.
  set (N := JS.aligned m e e') in *.
  set (D := JS.aligned 6755399441055744 (-48) e') in *.
  set (r := Z.rem N D) in *.
  destruct (r =? 0) eqn:Hr0; [now left|right].
  apply Z.eqb_neq in Hr0.
  assert (HD : D = 24 * 2 ^ (- e')).
  { unfold D, JS.aligned. rewrite Z.shiftl_mul_pow2 by (unfold e'; lia).
    replace (- e') with (48 + (-48 - e')) by lia.
    rewrite Z.pow_add_r by (unfold e'; lia).
    change (2 ^ 48) with 281474976710656. lia. }
  assert (HN : 0 < N) by (apply JSFacts.aligned_pos; unfold e'; lia).
  assert (Hrle : r <= N).
  { unfold r. rewrite Z.rem_mod_nonneg by lia. apply Z.mod_le; lia. }
  assert (Hr53 : r < 2 ^ 53).
  { destruct (Z.le_gt_cases (-48) e) as [Hle|Hgt].
    - assert (e' = -48) as He' by (unfold e'; lia).
      rewrite HD, He' in Hr. simpl in Hr. lia.
    - assert (e' = e) as He' by (unfold e'; lia).
      assert (N = Zpos m).
      { unfold N, JS.aligned. rewrite He'. replace (e - e) with 0 by lia.
        reflexivity. }
      assert (2 ^ Zpos (digits2_pos m) <= 2 ^ 53)
        by (apply Z.pow_le_mono_r; lia).
      lia. }
  destruct r as [|rp|rp] eqn:Hrp; try lia.
  assert (Hdig : Zpos (digits2_pos rp) <= 53).
  { pose proof (digits2_pos_bounds rp) as Hb.
    destruct (Z.le_gt_cases (Zpos (digits2_pos rp)) 53) as [H|H]; [exact H|].
    assert (2 ^ 53 <= 2 ^ (Zpos (digits2_pos rp) - 1))
      by (apply Z.pow_le_mono_r; lia).
    lia. }
  destruct (normalize_exact rp e' Hdig ltac:(unfold e'; lia))
    as (mz & ez & Hnorm & Hez & Hmz).
  exists mz, ez. cbn [cond_Zopp]. split; [exact Hnorm|].
  split; [unfold e' in Hez; lia|].
  rewrite Hmz.
  replace (- ez) with (- e' + (e' - ez)) by lia.
  rewrite Z.pow_add_r by (unfold e'; lia).
  assert (0 < 2 ^ (e' - ez)) by (apply Z.pow_pos_nonneg; lia).
  rewrite HD in Hr. nia.
Qed.

(** Rounding a number below 24 gives zero or one of 1, ..., 24. *)
Lemma Math_round_below_24 (mz : positive) (ez : Z) :
  ez < 0 -> Zpos mz < 24 * 2 ^ (- ez) ->
  exists k, 0 <= k <= 24 /\
    JS.Math_round (S754_finite false mz ez)
      = if k =? 0 then S754_zero false else JS.of_Z k.
Proof.
  intros Hez Hlt. unfold JS.Math_round.
  replace (0 <=? ez) with false by (symmetry; apply Z.leb_gt; lia).
  cbn [JS.signed cond_Zopp].
  pose proof (JSFacts.round_shift_spec (Zpos mz) (- ez) ltac:(lia)) as Hspec.
  set (k := JS.round_shift (Zpos mz) (- ez)) in *.
  exists k. split; [|reflexivity].
  assert (0 < 2 ^ (- ez)) by (apply Z.pow_pos_nonneg; lia).
  nia.
Qed.

End Exact.

(** X5. The remainder hours of a shelf life are a whole number between
    0 and 24: for every duration [h] the prediction can carry, the
    value shown after the days is one of 0, 1, ..., 24.  The bound 24
    is reached (at 23.6 hours, for one), so the card can read ["0d
    24h"]. *)
Theorem remainder_hours_range (s : ViewState) (h : JS.number)
    (Hh : rslHours s = Some h)
    (Hduration : JS.duration h = true) :
  exists k, 0 <= k <= 24 /\
    rslRemHours s = Some (if k =? 0 then S754_zero false else JS.of_Z k).
Proof.
  unfold rslRemHours. rewrite Hh.
  destruct h as [[]|[]| |[] m e]; try discriminate.
  - exists 0. split; [lia|reflexivity].
  - simpl in Hduration.
    destruct (Exact.rem_24_range m e Hduration) as [->|(mz & ez & -> & Hez & Hlt)].
    + exists 0. split; [lia|reflexivity].
    + destruct (Exact.Math_round_below_24 mz ez Hez Hlt) as (k & Hk & ->).
      exists k. split; [exact Hk|reflexivity].
Qed.

(** ** Box configuration *)

Section PanelFacts.

Variable trim : string -> string.

Implicit Types (s : Dashboard.Panel) (a : Dashboard.action).

(** The box list after each action. *)
Lemma boxes_perform s a :
  Dashboard.boxes (Dashboard.perform a s) = Dashboard.boxes s \/
  (exists r, a = Dashboard.ClickSaveBox r /\
     Dashboard.boxes (Dashboard.perform a s)
       = Dashboard.boxes s ++ [Dashboard.newBox r s]) \/
  (exists i, a = Dashboard.ClickDeleteBox true /\
     Dashboard.selectedBoxId s = Some i /\
     Dashboard.boxes (Dashboard.perform a s)
       = filter (fun box => Dashboard.id box <> i) (Dashboard.boxes s)) \/
  (exists i, a = Dashboard.ClickSaveEdit /\
     Dashboard.selectedBoxId s = Some i /\
     Dashboard.boxes (Dashboard.perform a s)
       = (fun box => if decide (Dashboard.id box = i)
                     then Dashboard.with_description (Dashboard.editDescription s) box
                     else box) <$> Dashboard.boxes s).
Proof.
  destruct a as [|v|r| |box| | |v| |[]|v| | | |]; simpl; auto.
  - unfold Dashboard.handleAddBox. destruct (_ <? _)%nat; auto.
  - right; left. eauto.
  - unfold Dashboard.handleEditBox.
    destruct (Dashboard.selectedBoxId s); auto.
    destruct (list_find _ _) as [[? ?]|]; auto.
  - unfold Dashboard.handleDeleteBox.
    destruct (Dashboard.selectedBoxId s) as [i|] eqn:Hi; auto.
    right; right; left. eauto.
  - unfold Dashboard.handleDeleteBox.
    destruct (Dashboard.selectedBoxId s); auto.
  - unfold Dashboard.handleSaveEdit.
    destruct (Dashboard.selectedBoxId s) as [i|] eqn:Hi; auto.
    right; right; right. eauto.
Qed.

Lemma showAddModal_perform s a :
  Dashboard.showAddModal (Dashboard.perform a s) = true ->
  Dashboard.showAddModal s = true /\ (forall r, a <> Dashboard.ClickSaveBox r) \/
  a = Dashboard.ClickAddBox /\ (length (Dashboard.boxes s) < 4)%nat.
Proof.
  destruct a as [|v|r| |box| | |v| |c|v| | | |]; simpl; try (left; split; [assumption|discriminate]).
  - unfold Dashboard.handleAddBox.
    destruct (_ <? _)%nat eqn:Hlt; simpl.
    + intros _. right. split; [reflexivity|]. now apply Nat.ltb_lt.
    + intros H. left. split; [exact H|discriminate].
  - discriminate.
  - discriminate.
  - unfold Dashboard.handleEditBox.
    destruct (Dashboard.selectedBoxId s); [|left; split; [assumption|discriminate]].
    destruct (list_find _ _) as [[? ?]|]; left; split; try assumption; discriminate.
  - unfold Dashboard.handleDeleteBox.
    destruct (Dashboard.selectedBoxId s); [|left; split; [assumption|discriminate]].
    destruct c; left; split; try assumption; discriminate.
  - unfold Dashboard.handleSaveEdit.
    destruct (Dashboard.selectedBoxId s); left; split; try assumption; discriminate.
Qed.

End PanelFacts.

(** X6. Capacity: however the page is used, it never holds more than
    four boxes, and the add dialog is open only while there is room for
    one more. *)
Theorem at_most_four_boxes (trim : string -> string) (s : Dashboard.Panel)
    (Hs : Dashboard.reachable trim s) :
  (length (Dashboard.boxes s) <= 4)%nat /\
  (Dashboard.showAddModal s = true -> (length (Dashboard.boxes s) < 4)%nat).
Proof.
  induction Hs as [|s a Hs [IHlen IHmodal] Ha].
  - split; [simpl; lia|discriminate].
  - assert (Hlen : (length (Dashboard.boxes (Dashboard.perform a s))
                      <= length (Dashboard.boxes s))%nat \/
                   exists r, a = Dashboard.ClickSaveBox r).
    { destruct (boxes_perform s a)
        as [-> | [(r & -> & _) | [(i & _ & _ & ->) | (i & _ & _ & ->)]]].
      - left; lia.
      - right; eauto.
      - left. apply length_filter.
      - left. rewrite length_fmap. lia. }
    destruct Hlen as [Hlen | (r & ->)].
    + split; [lia|].
      intros Hm. destruct (showAddModal_perform s a Hm) as [[Hm' _]|[_ Hlt]].
      * specialize (IHmodal Hm'). lia.
      * lia.
    + destruct Ha as [Hshown _]. specialize (IHmodal Hshown).
      split; [|discriminate].
      simpl. rewrite length_app. simpl. lia.
Qed.

Section PanelInvariants.

Variable trim : string -> string.

Implicit Types (s : Dashboard.Panel) (a : Dashboard.action).

Lemma selection_ok_perform s a :
  Dashboard.selection_ok s -> Dashboard.enabled trim s a ->
  Dashboard.selection_ok (Dashboard.perform a s).
Proof.
  intros [Hsel Hedit] Ha.
  destruct a as [|v|r| |box| | |v| |c|v| | | |]; simpl in *.
  - unfold Dashboard.handleAddBox. destruct (_ <? _)%nat; exact (conj Hsel Hedit).
  - exact (conj Hsel Hedit).
  - split; [|exact Hedit]. simpl.
    intros i Hi. destruct (Hsel i Hi) as (box & Hbox & Hid).
    exists box. split; [|exact Hid]. apply elem_of_app. now left.
  - exact (conj Hsel Hedit).
  - exact (conj Hsel Hedit).
  - exact (conj Hsel Hedit).
  - split; [discriminate|]. simpl. congruence.
  - split; [|simpl; congruence]. simpl.
    intros i ->. destruct Ha as [_ [Hv|(box & Hbox & Hv)]]; [discriminate|].
    injection Hv as ->. eauto.
  - destruct Ha as (_ & _ & [i Hi]).
    unfold Dashboard.handleEditBox. rewrite Hi.
    destruct (list_find _ _) as [[? ?]|]; [|exact (conj Hsel Hedit)].
    split; [exact Hsel|]. simpl. intros _. rewrite Hi. eauto.
  - destruct Ha as (_ & He & [i Hi]).
    unfold Dashboard.handleDeleteBox. rewrite Hi.
    destruct c; [|exact (conj Hsel Hedit)].
    split; [discriminate|]. simpl. congruence.
  - destruct Ha as [_ He]. split; [exact Hsel|]. simpl. intros _.
    now apply Hedit.
  - unfold Dashboard.handleSaveEdit.
    destruct Ha as [_ He]. destruct (Hedit He) as [i Hi]. rewrite Hi.
    split; [discriminate|]. simpl. congruence.
  - split; [discriminate|]. simpl. congruence.
  - exact (conj Hsel Hedit).
  - split; [discriminate|]. simpl. congruence.
Qed.

Lemma reachable_selection_ok s :
  Dashboard.reachable trim s -> Dashboard.selection_ok s.
Proof.
  induction 1 as [|s a Hs IH Ha].
  - split; [discriminate|]. simpl. congruence.
  - now apply selection_ok_perform.
Qed.

End PanelInvariants.

(** X7. The selection is always valid: whenever a box id is selected,
    a box with that id exists, and the edit field is filled only while
    an id is selected.  So the edit and delete handlers never fall
    through: [Edit Box] finds its box, a confirmed [Delete Box] removes
    at least one box, and [Save Changes] rewrites at least one. *)
Theorem selection_always_valid (trim : string -> string) (s : Dashboard.Panel)
    (Hs : Dashboard.reachable trim s) :
  (forall i, Dashboard.selectedBoxId s = Some i ->
     (exists box, box ∈ Dashboard.boxes s /\ Dashboard.id box = i) /\
     is_Some (list_find (fun box => Dashboard.id box = i) (Dashboard.boxes s)) /\
     (length (Dashboard.boxes (Dashboard.handleDeleteBox true s))
        < length (Dashboard.boxes s))%nat) /\
  (Dashboard.editDescription s <> "" ->
     exists i box,
       Dashboard.selectedBoxId s = Some i /\
       box ∈ Dashboard.boxes s /\ Dashboard.id box = i /\
       Dashboard.with_description (Dashboard.editDescription s) box
         ∈ Dashboard.boxes (Dashboard.handleSaveEdit s)).
Proof.
  destruct (reachable_selection_ok trim s Hs) as [Hsel Hedit].
  split.
  - intros i Hi. destruct (Hsel i Hi) as (box & Hbox & Hid).
    split; [eauto|]. split.
    + now apply (list_find_elem_of _ _ box).
    + unfold Dashboard.handleDeleteBox. rewrite Hi. simpl.
      apply (length_filter_lt _ _ box); [exact Hbox|]. intros H. now apply H.
  - intros He. destruct (Hedit He) as [i Hi].
    destruct (Hsel i Hi) as (box & Hbox & Hid).
    exists i, box. repeat split; try assumption.
    unfold Dashboard.handleSaveEdit. rewrite Hi. simpl.
    apply list_elem_of_fmap. exists box. split; [|exact Hbox].
    now rewrite decide_True.
Qed.

Section Descriptions.

Variable trim : string -> string.
Hypothesis trim_empty : trim "" = "".

Lemma descriptions_perform (s : Dashboard.Panel) (a : Dashboard.action) :
  Forall (fun box => Dashboard.description box <> "") (Dashboard.boxes s) ->
  Dashboard.enabled trim s a ->
  Forall (fun box => Dashboard.description box <> "")
    (Dashboard.boxes (Dashboard.perform a s)).
Proof.
  intros Hall Ha.
  destruct a as [|v|r| |box| | |v| |c|v| | | |]; simpl in *; try exact Hall.
  - unfold Dashboard.handleAddBox. now destruct (_ <? _)%nat.
  - apply Forall_app. split; [exact Hall|].
    constructor; [|constructor]. simpl.
    destruct Ha as [_ Ht]. intros Hd. rewrite Hd, trim_empty in Ht. discriminate.
  - unfold Dashboard.handleEditBox.
    destruct (Dashboard.selectedBoxId s); [|exact Hall].
    now destruct (list_find _ _) as [[? ?]|].
  - unfold Dashboard.handleDeleteBox.
    destruct (Dashboard.selectedBoxId s); [|exact Hall].
    destruct c; [|exact Hall]. simpl.
    apply Forall_forall. intros box Hbox.
    apply list_elem_of_filter in Hbox as [_ Hbox].
    revert box Hbox. now apply Forall_forall.
  - unfold Dashboard.handleSaveEdit.
    destruct (Dashboard.selectedBoxId s); [|exact Hall]. simpl.
    apply Forall_fmap. eapply Forall_impl; [exact Hall|].
    intros box Hbox. simpl. destruct (decide _); [|exact Hbox].
    simpl. now destruct Ha.
Qed.

End Descriptions.

(** X8. No box ever has an empty description: the save button of the
    add dialog is disabled on a blank description, and an edit that
    empties the field leaves edit mode before it can be saved. *)
Theorem descriptions_never_empty (trim : string -> string)
    (trim_empty : trim "" = "") (s : Dashboard.Panel)
    (Hs : Dashboard.reachable trim s) :
  Forall (fun box => Dashboard.description box <> "") (Dashboard.boxes s).
Proof.
  induction Hs as [|s a Hs IH Ha]; [constructor|].
  now apply (descriptions_perform trim trim_empty).
Qed.

(** ** Box ids *)

Lemma run_snoc (acts : list Dashboard.action) (a : Dashboard.action)
    (s : Dashboard.Panel) :
  Dashboard.run (acts ++ [a]) s = Dashboard.perform a (Dashboard.run acts s).
Proof. unfold Dashboard.run. now rewrite fold_left_app. Qed.

Lemma ids_perform (s : Dashboard.Panel) (a : Dashboard.action) :
  a <> Dashboard.ClickDeleteBox true ->
  Dashboard.ids (Dashboard.perform a s) = Dashboard.ids s \/
  Dashboard.ids (Dashboard.perform a s)
    = Dashboard.ids s ++ [(length (Dashboard.ids s) + 1)%nat].
Proof.
  intros Hdel. unfold Dashboard.ids.
  destruct a as [|v|r| |box| | |v| |c|v| | | |]; simpl; auto.
  - unfold Dashboard.handleAddBox. destruct (_ <? _)%nat; auto.
  - right. rewrite fmap_app, length_fmap. reflexivity.
  - unfold Dashboard.handleEditBox.
    destruct (Dashboard.selectedBoxId s); auto.
    destruct (list_find _ _) as [[? ?]|]; auto.
  - destruct c; [congruence|]. unfold Dashboard.handleDeleteBox.
    destruct (Dashboard.selectedBoxId s); auto.
  - unfold Dashboard.handleSaveEdit.
    destruct (Dashboard.selectedBoxId s) as [i|]; auto.
    left. simpl. rewrite <- list_fmap_compose. apply list_fmap_ext.
    intros k box _. simpl. now destruct (decide _).
Qed.

(** X9. As long as no box has been deleted, the boxes are numbered
    1, 2, ..., in the order in which they were added; in particular
    their ids are distinct. *)
Theorem ids_consecutive_without_delete (acts : list Dashboard.action)
    (Hnodel : Dashboard.ClickDeleteBox true ∉ acts) :
  let s := Dashboard.run acts Dashboard.initial in
  Dashboard.ids s = seq 1 (length (Dashboard.boxes s)) /\
  NoDup (Dashboard.ids s).
Proof.
  intros s.
  assert (H : Dashboard.ids s = seq 1 (length (Dashboard.ids s))).
  { subst s. induction acts as [|a acts IH] using rev_ind; [reflexivity|].
    rewrite run_snoc.
    apply not_elem_of_app in Hnodel as [Hacts Ha].
    specialize (IH Hacts).
    destruct (ids_perform (Dashboard.run acts Dashboard.initial) a) as [-> | ->].
    - intros ->. apply Ha. constructor.
    - exact IH.
    - rewrite length_app. simpl length. rewrite seq_app, <- IH.
      simpl. do 2 f_equal. lia. }
  split.
  - rewrite H at 1. unfold Dashboard.ids. now rewrite length_fmap.
  - rewrite H. apply NoDup_seq.
Qed.

Lemma filter_all {A : Type} (P : A -> Prop) `{!forall x, Decision (P x)}
    (l : list A) :
  Forall P l -> filter P l = l.
Proof.
  induction 1 as [|x l Hx Hl IH]; [reflexivity|].
  rewrite filter_cons_True by exact Hx. now rewrite IH.
Qed.

Lemma filter_seq_ne (i n : nat) :
  (1 <= i <= n)%nat ->
  filter (fun k => k <> i) (seq 1 n) = seq 1 (i - 1) ++ seq (i + 1) (n - i).
Proof.
  intros Hi.
  replace n with ((i - 1) + S (n - i))%nat at 1 by lia.
  rewrite seq_app, filter_app.
  replace (1 + (i - 1))%nat with i by lia.
  assert (E : seq i (S (n - i)) = i :: seq (i + 1) (n - i))
    by (simpl; do 2 f_equal; lia).
  rewrite E, filter_cons_False by (intros H; now apply H).
  rewrite !filter_all.
  - reflexivity.
  - apply Forall_forall. intros k Hk. apply elem_of_seq in Hk. lia.
  - apply Forall_forall. intros k Hk. apply elem_of_seq in Hk. lia.
Qed.

Lemma ids_filter (i : nat) (l : list Dashboard.BoxData) :
  Dashboard.id <$> filter (fun box => Dashboard.id box <> i) l
    = filter (fun k => k <> i) (Dashboard.id <$> l).
Proof.
  induction l as [|box l IH]; [reflexivity|].
  rewrite fmap_cons.
  destruct (decide (Dashboard.id box = i)) as [He|Hne].
  - rewrite !filter_cons_False by (intros H; now apply H). exact IH.
  - rewrite !filter_cons_True by exact Hne. rewrite fmap_cons. now f_equal.
Qed.

(** X10. Ids are reused after a deletion.  With boxes numbered 1 to [n],
    deleting box [i] below [n] and adding a box gives the new box the
    id [n], which the last box already has; deleting id [n] then
    removes both. *)
Theorem id_reused_after_delete
    (s : Dashboard.Panel) (r : Dashboard.Draws) (i n : nat)
    (Hids : Dashboard.ids s = seq 1 n)
    (Hsel : Dashboard.selectedBoxId s = Some i)
    (Hi : (1 <= i < n)%nat) :
  let s' := Dashboard.handleSaveBox r (Dashboard.handleDeleteBox true s) in
  Dashboard.ids s' = seq 1 (i - 1) ++ seq (i + 1) (n - i) ++ [n] /\
  ~ NoDup (Dashboard.ids s') /\
  length (Dashboard.boxes s') = n /\
  length (Dashboard.boxes
            (Dashboard.handleDeleteBox true (Dashboard.selectBoxId (Some n) s')))
    = (n - 2)%nat.
Proof.
  intros s'.
  assert (Hdel : Dashboard.ids (Dashboard.handleDeleteBox true s)
                 = seq 1 (i - 1) ++ seq (i + 1) (n - i)).
  { unfold Dashboard.handleDeleteBox, Dashboard.ids. rewrite Hsel. simpl.
    rewrite ids_filter. fold (Dashboard.ids s). rewrite Hids.
    apply filter_seq_ne. lia. }
  assert (Hlen : length (Dashboard.boxes (Dashboard.handleDeleteBox true s))
                 = (n - 1)%nat).
  { rewrite <- (length_fmap Dashboard.id). fold (Dashboard.ids (Dashboard.handleDeleteBox true s)).
    rewrite Hdel, length_app, !length_seq. lia. }
  assert (Hids' : Dashboard.ids s' = seq 1 (i - 1) ++ seq (i + 1) (n - i) ++ [n]).
  { subst s'. unfold Dashboard.ids, Dashboard.handleSaveBox. simpl.
    rewrite fmap_app. fold (Dashboard.ids (Dashboard.handleDeleteBox true s)).
    rewrite Hdel, <- app_assoc. simpl. rewrite Hlen.
    do 3 f_equal. lia. }
  split; [exact Hids'|].
  split.
  { rewrite Hids'. intros Hnd.
    apply NoDup_app in Hnd as (_ & _ & Hnd).
    apply NoDup_app in Hnd as (_ & Hdisj & _).
    apply (Hdisj n); [apply elem_of_seq; lia|constructor]. }
  split.
  { rewrite <- (length_fmap Dashboard.id). fold (Dashboard.ids s').
    rewrite Hids', !length_app, !length_seq. simpl. lia. }
  clearbody s'. unfold Dashboard.handleDeleteBox, Dashboard.selectBoxId.
  cbn [Dashboard.selectedBoxId Dashboard.setEditDescription
       Dashboard.setSelectedBoxId Dashboard.boxes Dashboard.setBoxes
       Dashboard.setShowManageModal].
  rewrite <- (length_fmap Dashboard.id), ids_filter.
  fold (Dashboard.ids s'). rewrite Hids'.
  rewrite !filter_app.
  rewrite (filter_cons_False _ n) by (intros H; now apply H).
  rewrite filter_nil, app_nil_r.
  replace (n - i)%nat with ((n - i - 1) + 1)%nat by lia.
  rewrite seq_app, filter_app.
  replace (i + 1 + (n - i - 1))%nat with n by lia.
  change (seq n 1) with [n].
  rewrite (filter_cons_False _ n) by (intros H; now apply H).
  rewrite filter_nil, app_nil_r.
  rewrite !filter_all.
  - rewrite length_app, !length_seq. lia.
  - apply Forall_forall. intros k Hk. apply elem_of_seq in Hk. lia.
  - apply Forall_forall. intros k Hk. apply elem_of_seq in Hk. lia.
Qed.

(** ** The chat route *)

Lemma string_app_assoc (a b c : string) :
  ((a ++ b) ++ c = a ++ b ++ c)%string.
Proof.
  induction a as [|x a IH]; [reflexivity|].
  change (String x ((a ++ b) ++ c) = String x (a ++ b ++ c))%string.
  now rewrite IH.
Qed.

Lemma string_app_nil_r (a : string) : (a ++ "" = a)%string.
Proof.
  induction a as [|x a IH]; [reflexivity|].
  change (String x (a ++ "") = String x a)%string.
  now rewrite IH.
Qed.

Lemma add_turn_turn (p : string) (msg : ChatRoute.Message) :
  ChatRoute.add_turn p msg = (p ++ ChatRoute.turn msg)%string.
Proof.
  unfold ChatRoute.turn, ChatRoute.add_turn.
  destruct (String.eqb _ "user"); [reflexivity|].
  destruct (String.eqb _ "assistant"); [reflexivity|].
  now rewrite string_app_nil_r.
Qed.

Lemma fold_add_turn (history : list ChatRoute.Message) :
  forall p, fold_left ChatRoute.add_turn history p
            = (p ++ ChatRoute.turns history)%string.
Proof.
  induction history as [|msg history IH]; intros p; simpl.
  - now rewrite string_app_nil_r.
  - now rewrite IH, add_turn_turn, string_app_assoc.
Qed.

Lemma turns_app (h1 h2 : list ChatRoute.Message) :
  ChatRoute.turns (h1 ++ h2) = (ChatRoute.turns h1 ++ ChatRoute.turns h2)%string.
Proof.
  induction h1 as [|msg h1 IH]; [reflexivity|].
  simpl. now rewrite IH, string_app_assoc.
Qed.

Lemma turn_unknown (msg : ChatRoute.Message) :
  ~ ChatRoute.known_role msg -> ChatRoute.turn msg = "".
Proof.
  unfold ChatRoute.known_role, ChatRoute.turn, ChatRoute.add_turn. intros H.
  destruct (String.eqb_spec (ChatRoute.role msg) "user"); [tauto|].
  destruct (String.eqb_spec (ChatRoute.role msg) "assistant"); [tauto|].
  reflexivity.
Qed.

Lemma turns_filter_known (history : list ChatRoute.Message) :
  ChatRoute.turns (filter ChatRoute.known_role history) = ChatRoute.turns history.
Proof.
  induction history as [|msg history IH]; [reflexivity|].
  destruct (decide (ChatRoute.known_role msg)) as [Hk|Hk].
  - rewrite filter_cons_True by exact Hk. simpl. now rewrite IH.
  - rewrite filter_cons_False by exact Hk. simpl.
    now rewrite IH, turn_unknown.
Qed.

Lemma fullPrompt_turns (history : list ChatRoute.Message) (message : string) :
  ChatRoute.fullPrompt history message
    = (ChatRoute.preamble ++ ChatRoute.turns history
         ++ "User: " ++ message ++ ChatRoute.nl ++ "Assistant:")%string.
Proof.
  unfold ChatRoute.fullPrompt. now rewrite fold_add_turn, string_app_assoc.
Qed.

(** X11. The prompt is the fixed preamble, then one line per message of
    the history in order, ["User: "] or ["Assistant: "] before its
    content, then the new message as a user line and an open assistant
    line.  Messages with any other role leave no trace, and a history
    split in two gives the lines of the first part followed by those of
    the second. *)
Theorem fullPrompt_shape
    (history earlier later : list ChatRoute.Message) (message : string) :
  ChatRoute.fullPrompt history message
    = (ChatRoute.preamble ++ ChatRoute.turns history
         ++ "User: " ++ message ++ ChatRoute.nl ++ "Assistant:")%string /\
  ChatRoute.fullPrompt (filter ChatRoute.known_role history) message
    = ChatRoute.fullPrompt history message /\
  ChatRoute.turns (earlier ++ later)
    = (ChatRoute.turns earlier ++ ChatRoute.turns later)%string /\
  (forall c,
     ChatRoute.turn {| ChatRoute.role := "user"; ChatRoute.content := c |}
       = ("User: " ++ c ++ ChatRoute.nl)%string /\
     ChatRoute.turn {| ChatRoute.role := "assistant"; ChatRoute.content := c |}
       = ("Assistant: " ++ c ++ ChatRoute.nl)%string).
Proof.
  split; [apply fullPrompt_turns|].
  split; [now rewrite !fullPrompt_turns, turns_filter_known|].
  split; [apply turns_app|].
  intros c. split; reflexivity.
Qed.

(** X12. Nothing is escaped: a user message that contains a line break
    followed by ["Assistant: "] yields the very prompt of a history in
    which the assistant said the rest. *)
Theorem fullPrompt_forged_turn
    (history : list ChatRoute.Message) (a b message : string) :
  let user c := {| ChatRoute.role := "user"; ChatRoute.content := c |} in
  let assistant c := {| ChatRoute.role := "assistant"; ChatRoute.content := c |} in
  ChatRoute.fullPrompt
    (history ++ [user (a ++ ChatRoute.nl ++ "Assistant: " ++ b)%string]) message
  = ChatRoute.fullPrompt (history ++ [user a; assistant b]) message.
Proof.
  intros user assistant. unfold ChatRoute.fullPrompt.
  rewrite !fold_add_turn, !turns_app. do 3 f_equal.
  change (ChatRoute.turns [user a; assistant b])
    with (("User: " ++ a ++ ChatRoute.nl)
            ++ ("Assistant: " ++ b ++ ChatRoute.nl) ++ "")%string.
  change (ChatRoute.turns [user (a ++ ChatRoute.nl ++ "Assistant: " ++ b)%string])
    with (("User: " ++ (a ++ ChatRoute.nl ++ "Assistant: " ++ b) ++ ChatRoute.nl)
            ++ "")%string.
  rewrite !string_app_nil_r, !string_app_assoc. reflexivity.
Qed.

Lemma or_default_string_nonempty (x : option string) (d : string) :
  d <> "" -> JS.or_default_string x d <> "".
Proof.
  intros Hd. unfold JS.or_default_string.
  destruct x as [[|c v]|]; simpl; congruence.
Qed.

Lemma ollama_model_nonempty (env : ChatRoute.Env) : ChatRoute.ollama_model env <> "".
Proof. apply or_default_string_nonempty. discriminate. Qed.

Section PostCases.

Variable env : ChatRoute.Env.

Lemma request_cases (request : ChatRoute.parse ChatRoute.Body) :
  (ChatRoute.without_message request /\ ~ ChatRoute.with_message request) \/
  (ChatRoute.with_message request /\ ~ ChatRoute.without_message request) \/
  ((exists m, request = ChatRoute.ParseError m) /\
     ~ ChatRoute.with_message request /\ ~ ChatRoute.without_message request).
Proof.
  destruct request as [[[[|c m]|] history]|perr].
  - left. split; [eexists; split; [reflexivity|now right]|].
    intros (b & m & [= <-] & Hm & Hne). simpl in Hm. congruence.
  - right; left. split; [eexists _, _; repeat split; discriminate|].
    intros (b & [= <-] & [H|H]); discriminate.
  - left. split; [eexists; split; [reflexivity|now left]|].
    intros (b & m & [= <-] & Hm & Hne). discriminate.
  - right; right. split; [eauto|].
    split; [intros (b & m & H & _)|intros (b & H & _)]; discriminate.
Qed.

Lemma upstream_cases {A : Type} (up : ChatRoute.upstream A) :
  ChatRoute.served up \/ ~ ChatRoute.served up.
Proof.
  destruct up as [nerr|st text [data|jerr]].
  - right. intros (st & text & data & H & _). discriminate.
  - destruct (ChatRoute.ok st) eqn:Hok.
    + left. eexists _, _, _. eauto.
    + right. intros (st' & text' & data' & [= <- _ _] & Hok'). congruence.
  - right. intros (st' & text' & data' & H & _). discriminate.
Qed.

Lemma POST_without_message request :
  ChatRoute.without_message request ->
  ChatRoute.POST env request
    = ChatRoute.Respond
        {| ChatRoute.status := 400;
           ChatRoute.payload := ChatRoute.BadRequest "Message is required" |}.
Proof. intros (b & -> & [H|H]); unfold ChatRoute.POST; now rewrite H. Qed.

Lemma POST_parse_error m up :
  ChatRoute.answer (ChatRoute.POST env (ChatRoute.ParseError m)) up
    = ChatRoute.chat_failure m.
Proof. reflexivity. Qed.

Lemma POST_with_message request up :
  ChatRoute.with_message request ->
  ChatRoute.answer (ChatRoute.POST env request) up = ChatRoute.POST_continue env up.
Proof.
  intros (b & m & -> & Hm & Hne). unfold ChatRoute.POST. rewrite Hm. simpl.
  now destruct m.
Qed.

Lemma POST_continue_served up :
  ChatRoute.served up ->
  exists reply model,
    ChatRoute.POST_continue env up
      = {| ChatRoute.status := 200;
           ChatRoute.payload := ChatRoute.ChatReply reply model |} /\
    reply <> "" /\ model <> "".
Proof.
  intros (st & text & data & -> & Hok). simpl. rewrite Hok. simpl.
  eexists _, _. split; [reflexivity|].
  split; apply or_default_string_nonempty;
    [discriminate|apply ollama_model_nonempty].
Qed.

Lemma POST_continue_not_served up :
  ~ ChatRoute.served up ->
  exists details, ChatRoute.POST_continue env up = ChatRoute.chat_failure details.
Proof.
  intros Hns. destruct up as [nerr|st text [data|jerr]]; simpl; eauto.
  - destruct (ChatRoute.ok st) eqn:Hok; simpl; eauto.
    exfalso. apply Hns. eexists _, _, _. eauto.
  - destruct (ChatRoute.ok st); simpl; eauto.
Qed.

End PostCases.



(** ** The assistant *)

Section AssistantFacts.

Variable trim : string -> string.

Implicit Types (s : Assistant.Chat).

Lemma send_cases (now : JS.number) s :
  (Assistant.handleSendMessage_request trim s = None /\
   Assistant.handleSendMessage_issue trim now s = s /\
   (Assistant.blank trim (Assistant.chatInput s) = true \/
    Assistant.isLoading s = true)) \/
  (Assistant.blank trim (Assistant.chatInput s) = false /\
   Assistant.isLoading s = false /\
   Assistant.handleSendMessage_request trim s
     = Some {| ChatRoute.message := Some (Assistant.chatInput s);
               ChatRoute.conversationHistory :=
                 Some (Assistant.wire <$> Assistant.chatMessages s) |} /\
   Assistant.handleSendMessage_issue trim now s
     = {| Assistant.chatMessages :=
            Assistant.chatMessages s
              ++ [{| Assistant.role := Assistant.user;
                     Assistant.content := Assistant.chatInput s;
                     Assistant.timestamp := now |}];
          Assistant.chatInput := "";
          Assistant.isLoading := true;
          Assistant.showChatbot := Assistant.showChatbot s |}).
Proof.
  unfold Assistant.handleSendMessage_request, Assistant.handleSendMessage_issue.
  destruct (Assistant.blank trim (Assistant.chatInput s)) eqn:Hb; simpl; [auto|].
  destruct (Assistant.isLoading s) eqn:Hl; simpl; [auto|].
  right. auto.
Qed.

Lemma well_formed_snoc s msg s' :
  Assistant.well_formed s ->
  Assistant.chatMessages s' = Assistant.chatMessages s ++ [msg] ->
  Assistant.role msg
    = (if Assistant.isLoading s then Assistant.assistant else Assistant.user) ->
  Assistant.isLoading s' = negb (Assistant.isLoading s) ->
  Assistant.well_formed s'.
Proof.
  intros [Hroles Hload] Hmsgs Hrole Hflag. split.
  - intros k m. rewrite Hmsgs. intros Hk.
    apply lookup_snoc_Some in Hk as [[_ Hk]|[-> <-]]; [now apply Hroles|].
    now rewrite Hrole, Hload.
  - rewrite Hflag, Hmsgs, length_app, Hload. simpl.
    rewrite Nat.add_1_r, Nat.even_succ, <- Nat.negb_even. reflexivity.
Qed.

Lemma well_formed_perform s a :
  Assistant.well_formed s -> Assistant.enabled s a -> Assistant.well_formed (Assistant.perform trim a s).
Proof.
  intros Hwf Ha.
  destruct a as [| |v|q|now|now r]; simpl; try exact Hwf.
  - destruct (send_cases now s) as [(_ & -> & _)|(_ & Hl & _ & ->)]; [exact Hwf|].
    eapply well_formed_snoc; [exact Hwf|reflexivity|now rewrite Hl|now rewrite Hl].
  - simpl in Ha.
    eapply well_formed_snoc; [exact Hwf|reflexivity|now rewrite Ha|now rewrite Ha].
Qed.

End AssistantFacts.

(** X15. The transcript alternates: it opens with the greeting, every
    message at an even position is the assistant's and every message at
    an odd position the user's, and a request is in flight exactly when
    the last message is the user's.  No second message can be sent
    before the answer to the first has been appended. *)
Theorem transcript_alternates
    (trim : string -> string) (start : JS.number) (s : Assistant.Chat)
    (Hs : Assistant.reachable trim start s) :
  head (Assistant.chatMessages s)
    = Some {| Assistant.role := Assistant.assistant;
              Assistant.content := Assistant.greeting;
              Assistant.timestamp := start |} /\
  (forall k msg, Assistant.chatMessages s !! k = Some msg ->
     Assistant.role msg = if Nat.even k then Assistant.assistant else Assistant.user) /\
  Assistant.isLoading s = Nat.even (length (Assistant.chatMessages s)) /\
  (Assistant.isLoading s = true ->
     forall now, Assistant.handleSendMessage_issue trim now s = s /\
                 Assistant.handleSendMessage_request trim s = None).
Proof.
  assert (Hwf : Assistant.well_formed s).
  { induction Hs as [|s a Hs IH Ha].
    - split; [|reflexivity]. intros [|k] msg; simpl; [now intros [= <-]|discriminate].
    - now apply well_formed_perform. }
  assert (Hhead : head (Assistant.chatMessages s)
                  = Some {| Assistant.role := Assistant.assistant;
                            Assistant.content := Assistant.greeting;
                            Assistant.timestamp := start |}).
  { clear Hwf. induction Hs as [|s a Hs IH Ha]; [reflexivity|].
    assert (Hsnoc : forall msg, head (Assistant.chatMessages s ++ [msg])
                                = head (Assistant.chatMessages s)).
    { intros msg. revert IH.
      destruct (Assistant.chatMessages s); [discriminate|reflexivity]. }
    destruct a as [| |v|q|now|now r]; simpl; try exact IH.
    - destruct (send_cases trim now s) as [(_ & -> & _)|(_ & _ & _ & ->)]; [exact IH|].
      simpl. now rewrite Hsnoc.
    - now rewrite Hsnoc. }
  destruct Hwf as [Hroles Hload].
  split; [exact Hhead|]. split; [exact Hroles|]. split; [exact Hload|].
  intros Hl now.
  unfold Assistant.handleSendMessage_issue, Assistant.handleSendMessage_request.
  rewrite Hl, orb_true_r. now split.
Qed.


(** ** The sensor node *)

(** X17. With 12-bit analog inputs, the ammonia value a pass reports
    lies between 0 and 9 and the alcohol value between 0 and 1367,
    whatever the sensors read; both fit an [int] with room to spare. *)
Theorem gas_values_bounded (r : Sketch.Readings)
    (Hmq135 : 0 <= Sketch.mq135_raw r <= 4095)
    (Hnh3 : 0 <= Sketch.nh3_raw r <= 4095)
    (Hr1 : 1 <= Sketch.random_1_6 r < 6)
    (Hr2 : 1 <= Sketch.random_1_101 r < 101) :
  0 <= Sketch.nh3_val r <= 9 /\
  0 <= Sketch.mq3_val r <= 1367.
Proof.
  assert (Hn : 0 <= Sketch.nh3_val r <= 9).
  { unfold Sketch.nh3_val.
    rewrite Z.quot_div_nonneg by lia.
    assert (0 <= Sketch.nh3_raw r / 400 < 11).
    { split; [apply Z.div_pos; lia|].
      apply Z.div_lt_upper_bound; lia. }
    lia. }
  split; [exact Hn|].
  unfold Sketch.mq3_val, Sketch.mq135_val.
  rewrite Z.quot_div_nonneg by lia.
  assert (0 <= (Sketch.mq135_raw r + Sketch.nh3_val r) / 3 < 1369).
  { split; [apply Z.div_pos; lia|].
    apply Z.div_lt_upper_bound; lia. }
  lia.
Qed.

(** X18. A pass writes to the cloud only when both DHT22 readings are
    numbers, and then exactly the five values, in the order V0, V2, V3,
    V4, V5; when either reading is NaN it writes nothing and the display
    reads ["Sensor error!"].  In neither case does the pass depend on
    the spoilage status received on V7: the display says [" OK"]
    whatever it is. *)
Theorem loop_effects
    (fixed0 fixed1 : spec_float -> string)
    (spoilageStatus : Z) (r : Sketch.Readings) :
  let effects := Sketch.loop fixed0 fixed1 spoilageStatus r in
  let readable := negb (Sketch.isnan (Sketch.h r))
                  && negb (Sketch.isnan (Sketch.tC r)) in
  (forall other, Sketch.loop fixed0 fixed1 other r = effects) /\
  (readable = true ->
     filter (fun e => Sketch.is_write e = true) effects
       = [Sketch.BlynkWrite Sketch.V0 (Sketch.Float (Sketch.tC r));
          Sketch.BlynkWrite Sketch.V2 (Sketch.Float (Sketch.h r));
          Sketch.BlynkWrite Sketch.V3 (Sketch.Int (Sketch.mq135_val r));
          Sketch.BlynkWrite Sketch.V4 (Sketch.Int (Sketch.nh3_val r));
          Sketch.BlynkWrite Sketch.V5 (Sketch.Int (Sketch.mq3_val r))] /\
     Sketch.LcdPrint " OK" ∈ effects) /\
  (readable = false ->
     effects = [Sketch.LcdClear; Sketch.LcdSetCursor 0 0;
                Sketch.LcdPrint "Sensor error!";
                Sketch.BlynkRun; Sketch.Delay 1000]).
Proof.
  intros effects readable. subst effects readable. unfold Sketch.loop.
  destruct (negb (Sketch.isnan (Sketch.h r)) && negb (Sketch.isnan (Sketch.tC r))).
  - split.
    + intros other.
      destruct (Z.eqb other 1), (Z.eqb other 0),
               (Z.eqb spoilageStatus 1), (Z.eqb spoilageStatus 0); reflexivity.
    + split; [|discriminate]. intros _. split.
      * destruct (Z.eqb spoilageStatus 1); reflexivity.
      * apply list_elem_of_lookup. exists 10%nat.
        destruct (Z.eqb spoilageStatus 1); reflexivity.
  - split; [reflexivity|]. split; [discriminate|reflexivity].
Qed.

(** ** Instances *)

Lemma chart_never_empty_witness :
  let s := fetchPredict_settle (Axios.Resolved None)
             (fetchDataRows_settle (Axios.Resolved None) initial) in
  exists screen,
    render (fun _ => "0") (fun _ _ => "0.0") (fun t => t) (fun _ => "") (JS.of_Z 0) s
      = JS.Normal screen /\
    length (co2_chart screen) = 1%nat /\
    history_points screen = 0%nat.
Proof.
  intros s. eexists. split; [reflexivity|].
  destruct (chart_never_empty (fun _ => "0") (fun _ _ => "0.0") (fun t => t)
              (fun _ => "") (JS.of_Z 0) s _ eq_refl) as (H0 & H1 & _).
  split; [exact H1|exact H0].
Defined.

Lemma one_box_reachable :
  Dashboard.reachable (fun v => v)
    (Dashboard.run (add_one "Ayam mentah") Dashboard.initial).
Proof.
  change (Dashboard.reachable (fun v => v)
            (Dashboard.perform (Dashboard.ClickSaveBox demo_draws)
               (Dashboard.perform (Dashboard.TypeNewDescription "Ayam mentah")
                  (Dashboard.perform Dashboard.ClickAddBox Dashboard.initial)))).
  apply Dashboard.reachable_perform; [|split; reflexivity].
  apply Dashboard.reachable_perform; [|reflexivity].
  apply Dashboard.reachable_perform; [|simpl; lia].
  apply Dashboard.reachable_initial.
Defined.

Lemma at_most_four_boxes_witness :
  let s := Dashboard.run (add_one "Ayam mentah") Dashboard.initial in
  Dashboard.reachable (fun v => v) s /\
  length (Dashboard.boxes s) = 1%nat /\
  (length (Dashboard.boxes s) <= 4)%nat.
Proof.
  intros s. split; [exact one_box_reachable|]. split; [reflexivity|].
  exact (proj1 (at_most_four_boxes (fun v => v) s one_box_reachable)).
Defined.

Lemma descriptions_never_empty_witness :
  let s := Dashboard.run (add_one "Ayam mentah") Dashboard.initial in
  (fun v : string => v) "" = "" /\
  Dashboard.reachable (fun v => v) s /\
  Forall (fun box => Dashboard.description box <> "") (Dashboard.boxes s).
Proof.
  intros s. split; [reflexivity|]. split; [exact one_box_reachable|].
  exact (descriptions_never_empty (fun v => v) eq_refl s one_box_reachable).
Defined.

Lemma selected_box_reachable :
  Dashboard.reachable (fun v => v)
    (Dashboard.run
       (add_one "Ayam mentah"
          ++ [Dashboard.ClickManageBox; Dashboard.SelectBoxId (Some 1%nat)])
       Dashboard.initial).
Proof.
  change (Dashboard.reachable (fun v => v)
            (Dashboard.perform (Dashboard.SelectBoxId (Some 1%nat))
               (Dashboard.perform Dashboard.ClickManageBox
                  (Dashboard.run (add_one "Ayam mentah") Dashboard.initial)))).
  apply Dashboard.reachable_perform.
  - apply Dashboard.reachable_perform; [exact one_box_reachable|exact I].
  - split; [reflexivity|]. right.
    exists (Dashboard.newBox demo_draws
              (Dashboard.setNewBoxDescription "Ayam mentah"
                 (Dashboard.handleAddBox Dashboard.initial))).
    split; [apply list_elem_of_here|reflexivity].
Defined.

Lemma selection_always_valid_witness :
  let s := Dashboard.run
             (add_one "Ayam mentah"
                ++ [Dashboard.ClickManageBox; Dashboard.SelectBoxId (Some 1%nat)])
             Dashboard.initial in
  Dashboard.reachable (fun v => v) s /\
  Dashboard.selectedBoxId s = Some 1%nat /\
  (length (Dashboard.boxes (Dashboard.handleDeleteBox true s))
     < length (Dashboard.boxes s))%nat.
Proof.
  intros s. split; [exact selected_box_reachable|]. split; [reflexivity|].
  destruct (selection_always_valid (fun v => v) s selected_box_reachable) as [H _].
  exact (proj2 (proj2 (H 1%nat eq_refl))).
Defined.

Lemma ids_consecutive_without_delete_witness :
  let acts := add_one "Ayam" ++ add_one "Ikan" ++ add_one "Daging" in
  (Dashboard.ClickDeleteBox true ∉ acts) /\
  Dashboard.ids (Dashboard.run acts Dashboard.initial) = [1; 2; 3]%nat.
Proof.
  intros acts.
  assert (H : Dashboard.ClickDeleteBox true ∉ acts).
  { intros Hin. repeat (apply elem_of_cons in Hin as [Hin|Hin]; [discriminate|]).
    now apply elem_of_nil in Hin. }
  split; [exact H|].
  exact (proj1 (ids_consecutive_without_delete acts H)).
Defined.

Lemma id_reused_after_delete_witness :
  let acts := add_one "Ayam" ++ add_one "Ikan" ++ add_one "Daging" in
  let s := Dashboard.selectBoxId (Some 1%nat)
             (Dashboard.run acts Dashboard.initial) in
  let s' := Dashboard.handleSaveBox demo_draws (Dashboard.handleDeleteBox true s) in
  Dashboard.ids s = seq 1 3 /\
  Dashboard.selectedBoxId s = Some 1%nat /\
  (1 <= 1 < 3)%nat /\
  Dashboard.ids s' = [2; 3; 3]%nat.
Proof.
  intros acts s s'.
  split; [reflexivity|]. split; [reflexivity|]. split; [lia|].
  exact (proj1 (id_reused_after_delete s demo_draws 1 3 eq_refl eq_refl
                  ltac:(lia))).
Defined.

Lemma typed_reachable :
  Assistant.reachable (fun v => v) (JS.of_Z 0)
    (Assistant.perform (fun v => v) (Assistant.TypeInput "Is the chicken fresh?")
       (Assistant.perform (fun v => v) Assistant.ToggleChatbot
          (Assistant.initial (JS.of_Z 0)))).
Proof.
  apply Assistant.reachable_perform; [|split; reflexivity].
  apply Assistant.reachable_perform; [|exact I].
  apply Assistant.reachable_initial.
Defined.

Lemma transcript_alternates_witness :
  let s := Assistant.perform (fun v => v) (Assistant.TypeInput "Is the chicken fresh?")
             (Assistant.perform (fun v => v) Assistant.ToggleChatbot
                (Assistant.initial (JS.of_Z 0))) in
  Assistant.reachable (fun v => v) (JS.of_Z 0) s /\
  Assistant.isLoading s = Nat.even (length (Assistant.chatMessages s)).
Proof.
  intros s. split; [exact typed_reachable|].
  destruct (transcript_alternates (fun v => v) (JS.of_Z 0) s typed_reachable)
    as (_ & _ & H & _).
  exact H.
Defined.


Lemma gas_values_bounded_witness :
  let r := {| Sketch.h := S754_zero false;
              Sketch.tC := S754_zero false;
              Sketch.mq135_raw := 4095;
              Sketch.nh3_raw := 4095;
              Sketch.random_1_6 := 1;
              Sketch.random_1_101 := 1 |} in
  0 <= Sketch.mq135_raw r <= 4095 /\
  0 <= Sketch.nh3_raw r <= 4095 /\
  1 <= Sketch.random_1_6 r < 6 /\
  1 <= Sketch.random_1_101 r < 101 /\
  Sketch.nh3_val r = 9 /\
  Sketch.mq3_val r = 1367 /\
  0 <= Sketch.nh3_val r <= 9 /\
  0 <= Sketch.mq3_val r <= 1367.
Proof.
  intros r.
  assert (H1 : 0 <= Sketch.mq135_raw r <= 4095) by (simpl; lia).
  assert (H2 : 0 <= Sketch.nh3_raw r <= 4095) by (simpl; lia).
  assert (H3 : 1 <= Sketch.random_1_6 r < 6) by (simpl; lia).
  assert (H4 : 1 <= Sketch.random_1_101 r < 101) by (simpl; lia).
  do 4 (split; [assumption|]).
  split; [reflexivity|]. split; [reflexivity|].
  exact (gas_values_bounded r H1 H2 H3 H4).
Defined.

Lemma remainder_hours_range_witness :
  let raw := {| Api.classification_text := Some "Fresh";
                Api.classification_prob := Some (JS.decimal 8734 4);
                Api.raw_confidence := Some (JS.decimal 912 1);
                Api.rsl_hours := Some (JS.decimal 236 1);
                Api.raw_status := Some "success" |} in
  let pr := {| Api.classification := Some "Fresh";
               Api.probability := Some (JS.decimal 8734 4);
               Api.confidence := Some (JS.decimal 912 1);
               Api.raw_prediction := Some raw |} in
  let resp := {| Api.status := Some "success";
                 Api.prediction := Some pr;
                 Api.blynk_updated := None;
                 Api.blynk_pin := None;
                 Api.blynk_value := None;
                 Api.data_points_used := None |} in
  let s := fetchPredict_settle (Axios.Resolved (Some resp)) initial in
  rslHours s = Some (JS.decimal 236 1) /\
  JS.duration (JS.decimal 236 1) = true /\
  exists k, 0 <= k <= 24 /\
    rslRemHours s = Some (if k =? 0 then S754_zero false else JS.of_Z k).
Proof.
  intros raw pr resp s.
  split; [reflexivity|]. split; [reflexivity|].
  exact (remainder_hours_range s (JS.decimal 236 1) eq_refl eq_refl).
Defined.
